(** * City-AQI: the data-shaping service [src/services/aqi.ts]

    A shallow embedding of [getAqiCategory], [fetchWaqiData] and
    [fetchEnvironmentalData], and the properties of the view model they
    build.

    Conventions of the embedding.
    - A JavaScript number is an exact rational or [NaN]: rounding and
      overflow of IEEE doubles are not modelled, the propagation of [NaN]
      through arithmetic and comparisons is. What the theorems assert
      of an arithmetic result, for arbitrary inputs, is therefore a
      comparison, a bound that includes its end points, or a
      monotonicity, which rounding to nearest keeps.
    - A member of the upstream JSON document is absent or a JSON number
      (the type the interfaces of the module declare); [undefined] is a
      value of its own, coerced to [NaN] by arithmetic.
    - [Math.random()] is an oracle [random : nat -> Q], the successive
      values handed out during one call; the generator threads the index
      of the next draw, so a draw skipped by a short-circuit [||] shifts
      every later one, as in the program.
    - [new Date()], the locale, the API key and [encodeURIComponent] are
      an environment record.
    - [fetch] and [response.json()] are the outcome they settle with;
      [console.error] appends to a log; [throw] is the left summand. *)

From Stdlib Require Import QArith Qround ZArith String Ascii List Lia Lqa Bool.
From Stdlib Require Import DecimalString.
Import ListNotations.

Local Open Scope Q_scope.

(** ** JavaScript values *)

Inductive number : Type :=
| NaN
| Num (q : Q).

Inductive jsval : Type :=
| VUndefined
| VNumber (n : number).

(** ToNumber: [undefined] becomes [NaN]. *)
Definition ToNumber (v : jsval) : number :=
  match v with
  | VUndefined => NaN
  | VNumber n => n
  end.

(** ToBoolean: [undefined], [NaN] and zero are falsy. *)
Definition ToBoolean (v : jsval) : bool :=
  match v with
  | VNumber (Num q) => negb (Qeq_bool q 0)
  | _ => false
  end.

(** An arithmetic operator, computed exactly; the program rounds its
    result to the nearest double. *)
Definition lift2 (f : Q -> Q -> Q) (a b : number) : number :=
  match a, b with
  | Num x, Num y => Num (f x y)
  | _, _ => NaN
  end.

Definition add : number -> number -> number := lift2 Qplus.
Definition sub : number -> number -> number := lift2 Qminus.
Definition mul : number -> number -> number := lift2 Qmult.

(** [a <= b] and [a > b]: false as soon as one side is [NaN]. *)
Definition leb (a b : number) : bool :=
  match a, b with
  | Num x, Num y => Qle_bool x y
  | _, _ => false
  end.

Definition gtb (a b : number) : bool :=
  match a, b with
  | Num x, Num y => negb (Qle_bool x y)
  | _, _ => false
  end.

(** The same comparisons as propositions. *)
Definition num_le (a b : number) : Prop :=
  match a, b with
  | Num x, Num y => x <= y
  | _, _ => False
  end.

Definition num_lt (a b : number) : Prop :=
  match a, b with
  | Num x, Num y => x < y
  | _, _ => False
  end.

(** Equality of numbers as [===] sees it on numeric values. *)
Definition num_eq (a b : number) : Prop :=
  match a, b with
  | Num x, Num y => x == y
  | _, _ => False
  end.

Definition Math_max (a b : number) : number :=
  lift2 (fun x y => if Qle_bool x y then y else x) a b.

(** [Math.round]: the nearest integer, halves going up. *)
Definition Math_round (a : number) : number :=
  match a with
  | NaN => NaN
  | Num x => Num (inject_Z (Qfloor (x + 0.5)))
  end.

(** [v || d] where [d] is a number: the left operand when truthy. *)
Definition or_else (v : jsval) (d : number) : number :=
  if ToBoolean v then ToNumber v else d.

(** ** Strings built by the module *)

Definition toString (n : nat) : string :=
  NilZero.string_of_uint (Nat.to_uint n).

Fixpoint repeat_string (fill : string) (k : nat) : string :=
  match k with
  | O => EmptyString
  | S k' => fill ++ repeat_string fill k'
  end.

(** [s.padStart(len, fill)] for a one-character [fill]. *)
Definition padStart (len : nat) (fill : string) (s : string) : string :=
  (repeat_string fill (len - String.length s) ++ s)%string.

(** [n.toString().padStart(2, '0') + ':00'] *)
Definition hour_label (n : nat) : string :=
  (padStart 2 "0" (toString n) ++ ":00")%string.

(** [`Week ${i + 1}`] *)
Definition week_label (i : nat) : string :=
  ("Week " ++ toString (i + 1))%string.

(** [(2020 + i).toString()] *)
Definition year_label (i : nat) : string := toString (2020 + i).

(** ** The view model: [AQIPrediction] and [EnvironmentalData] *)

Inductive Trend : Type := improving | stable | worsening.

Record AQIPrediction : Type := {
  predictedAQI : number;
  confidence : number;
  trend : Trend
}.

(** [pollutants]: every member is optional; an absent member reads as
    [undefined]. *)
Record Pollutants : Type := {
  pm25 : jsval;
  no2 : jsval;
  so2 : jsval;
  o3 : jsval
}.

Module CurrentAqi.
Record t : Type := {
  value : jsval;
  category : string;
  pollutants : Pollutants;
  prediction : option AQIPrediction
}.
End CurrentAqi.

Module Current.
Record t : Type := {
  timestamp : string;
  temperature : number;
  humidity : number;
  co2 : number;
  aqi : CurrentAqi.t
}.
End Current.

Module HourlyAqi.
Record t : Type := {
  value : number;
  pollutants : Pollutants
}.
End HourlyAqi.

Module Hourly.
Record t : Type := {
  hour : string;
  temperature : number;
  humidity : number;
  co2 : number;
  aqi : HourlyAqi.t
}.
End Hourly.

(** An entry of a time-range series or of [locationAverages]; [label] is
    the member named [hour], [week], [month], [year] or [location]. *)
Record Average : Type := {
  label : string;
  averageAqi : number
}.

Record TimeRangeAverages : Type := {
  daily : list Average;
  weekly : list Average;
  monthly : list Average;
  yearly : list Average
}.

Record EnvironmentalData : Type := {
  current : Current.t;
  hourly : list Hourly.t;
  timeRangeAverages : TimeRangeAverages;
  locationAverages : list Average
}.

(** ** [getAqiCategory] *)

Definition getAqiCategory (aqi : jsval) : string :=
  if leb (ToNumber aqi) (Num 50) then "Good"
  else if leb (ToNumber aqi) (Num 100) then "Moderate"
  else if leb (ToNumber aqi) (Num 150) then "Unhealthy for Sensitive Groups"
  else if leb (ToNumber aqi) (Num 200) then "Unhealthy"
  else if leb (ToNumber aqi) (Num 300) then "Very Unhealthy"
  else "Hazardous".

(** ** The upstream document, as the module reads it *)

Record Reading : Type := { v : option Q }.

Record Iaqi : Type := {
  t : option Reading;
  h : option Reading;
  co : option Reading;
  i_pm25 : option Reading;
  i_no2 : option Reading;
  i_so2 : option Reading;
  i_o3 : option Reading
}.

Record WaqiData : Type := {
  w_aqi : option Q;
  iaqi : option Iaqi
}.

(** The member [data] of the body: absent ([null] or [undefined]), a
    message string (what the service sends with an error status), or the
    feed object. *)
Inductive BodyData : Type :=
| NoData
| Message (s : string)
| Feed (w : WaqiData).

(** The parsed body; one that is not an object (a number, a string, an
    array) reads as a body with neither member. *)
Record WaqiBody : Type := {
  status : option string;
  data : BodyData
}.

Definition of_json (x : option Q) : jsval :=
  match x with
  | None => VUndefined
  | Some q => VNumber (Num q)
  end.

(** [waqiData.iaqi?.m?.v] for a member [m] of [iaqi]. *)
Definition chain (w : WaqiData) (m : Iaqi -> option Reading) : jsval :=
  match iaqi w with
  | None => VUndefined
  | Some i =>
      match m i with
      | None => VUndefined
      | Some r => of_json (v r)
      end
  end.

(** Reading members off [waqiResponse.data] when it is not [null]: a
    string has neither [aqi] nor [iaqi]. *)
Definition empty_feed : WaqiData := {| w_aqi := None; iaqi := None |}.

(** [waqiResponse.data] as the value members are read off: nothing when
    it is [null] or [undefined], where reading a member throws. *)
Definition feed_of (d : BodyData) : option WaqiData :=
  match d with
  | NoData => None
  | Message _ => Some empty_feed
  | Feed w => Some w
  end.

(** ** Exceptions and the console *)

Record JsError : Type := {
  name : string;
  message : string
}.

(** [new Error(m)] *)
Definition Error (m : string) : JsError :=
  {| name := "Error"; message := m |}.

(** The TypeError of reading property [p] of [null] or [undefined].
    Only the name is that of the program: the message stands in for the
    wording of the engine, which differs between engines and between
    [null] and [undefined]. *)
Definition TypeError_reading (p : string) : JsError :=
  {| name := "TypeError";
     message := ("Cannot read properties of null or undefined (reading '" ++ p ++ "')")%string |}.

(** A computation that may throw: the lines written with
    [console.error], then the error thrown or the value returned. *)
Definition Js (A : Type) : Type := list (string * JsError) * (JsError + A).

Definition jret {A} (x : A) : Js A := ([], inr x).

Definition throw {A} (e : JsError) : Js A := ([], inl e).

Definition jbind {A B} (m : Js A) (k : A -> Js B) : Js B :=
  match m with
  | (l, inl e) => (l, inl e)
  | (l, inr x) => let (l', r) := k x in (l ++ l', r)
  end.

(** [try { m } catch (error) { handler error }] *)
Definition try_catch {A} (m : Js A) (handler : JsError -> Js A) : Js A :=
  match m with
  | (l, inl e) => let (l', r) := handler e in (l ++ l', r)
  | (l, inr x) => (l, inr x)
  end.

Definition console_error (s : string) (e : JsError) : Js unit :=
  ([(s, e)], inr tt).

Declare Scope js_scope.
Delimit Scope js_scope with js.
Notation "x <- m ;; k" := (jbind m (fun x => k))
  (at level 100, m at next level, right associativity) : js_scope.
Notation "m ;;; k" := (jbind m (fun _ => k))
  (at level 100, right associativity) : js_scope.

Definition console {A} (r : Js A) : list (string * JsError) := fst r.
Definition completion {A} (r : Js A) : JsError + A := snd r.

Definition throws {A} (r : Js A) (e : JsError) : Prop := completion r = inl e.
Definition returns {A} (r : Js A) (x : A) : Prop := completion r = inr x.

(** ** The environment: clock, locale, key and URI encoder *)

Definition WAQI_API_BASE_URL : string := "https://api.waqi.info/feed".

Record Env : Type := {
  (** [import.meta.env.VITE_WAQI_API_KEY] *)
  WAQI_API_KEY : string;
  (** [encodeURIComponent], which throws a URIError on a string that is
      not well-formed *)
  encodeURIComponent : string -> JsError + string;
  (** [now.toISOString()] *)
  toISOString : string;
  (** [getHours()] of the date [i] hours before [now], after
      [setHours(getHours() - i)] *)
  hoursBefore : nat -> nat;
  (** [new Date(2024, i, 1).toLocaleString('default', {month: 'short'})] *)
  monthShort : nat -> string
}.

(** ** The generator monad: the index of the next [Math.random()] draw *)

Definition Gen (A : Type) : Type := nat -> A * nat.

Definition gret {A} (x : A) : Gen A := fun n => (x, n).

Definition gbind {A B} (m : Gen A) (k : A -> Gen B) : Gen B :=
  fun n => let (x, n') := m n in k x n'.

Declare Scope gen_scope.
Delimit Scope gen_scope with gen.
Notation "x <- m ;; k" := (gbind m (fun x => k))
  (at level 100, m at next level, right associativity) : gen_scope.

Fixpoint mapM {A B} (f : A -> Gen B) (l : list A) : Gen (list B) :=
  match l with
  | [] => gret []
  | x :: xs => (y <- f x ;; ys <- mapM f xs ;; gret (y :: ys))%gen
  end.

(** [Array.from({ length: len }, (_, i) => f i)] *)
Definition Array_from {A} (len : nat) (f : nat -> Gen A) : Gen (list A) :=
  mapM f (seq 0 len).

(** ** The network: what [fetch] and [response.json()] settle with *)

Inductive JsonOutcome : Type :=
| JsonRejected (e : JsError)
| JsonNull
| JsonValue (b : WaqiBody).

Record Response : Type := {
  ok : bool;
  json : JsonOutcome
}.

Inductive FetchOutcome : Type :=
| Rejected (e : JsError)
| Resolved (r : Response).

(** [data.status !== 'ok'] *)
Definition status_not_ok (b : WaqiBody) : bool :=
  match status b with
  | Some s => negb (String.eqb s "ok")
  | None => true
  end.

(** [data.data || 'Failed to fetch WAQI data'], as the message of the
    error built from it. *)
Definition data_or_default (b : WaqiBody) : string :=
  match data b with
  | NoData => "Failed to fetch WAQI data"
  | Message s => if String.eqb s "" then "Failed to fetch WAQI data" else s
  | Feed _ => "[object Object]"
  end.

(** The parameter [city: string = 'mumbai']. *)
Definition city_or_default (city : option string) : string :=
  match city with Some c => c | None => "mumbai"%string end.

(** [`${WAQI_API_BASE_URL}/${encodeURIComponent(city)}/?token=${WAQI_API_KEY}`] *)
Definition request_url (env : Env) (city : string) : JsError + string :=
  match encodeURIComponent env city with
  | inl e => inl e
  | inr c =>
      inr (WAQI_API_BASE_URL ++ "/" ++ c ++ "/?token=" ++ WAQI_API_KEY env)%string
  end.

Section Service.

Variable env : Env.
(** What [fetch] settles with, for each URL. *)
Variable network : string -> FetchOutcome.
Variable random : nat -> Q.

Definition fetchWaqiData (city : string) : Js WaqiBody :=
  try_catch
    (match request_url env city with
     | inl e => throw e
     | inr url =>
         match network url with
         | Rejected e => throw e
         | Resolved response =>
             if negb (ok response)
             then throw (Error "Failed to fetch WAQI data")
             else
               match json response with
               | JsonRejected e => throw e
               | JsonNull => throw (TypeError_reading "status")
               | JsonValue data =>
                   if status_not_ok data
                   then throw (Error (data_or_default data))
                   else jret data
               end
         end
     end)
    (fun error =>
       (console_error "Error fetching WAQI data:" error ;;;
        throw error)%js).

Definition Math_random : Gen number :=
  fun n => (Num (random n), S n).

(** [v || d], the right operand evaluated only when [v] is falsy. *)
Definition or_else_gen (v : jsval) (d : Gen number) : Gen number :=
  if ToBoolean v then gret (ToNumber v) else d.

Definition generateVariation (baseValue : jsval) : Gen number :=
  (r <- Math_random ;;
   gret (Math_max (Num 0)
           (add (ToNumber baseValue) (sub (mul r (Num 40)) (Num 20)))))%gen.

Definition make_prediction (currentAqi : jsval) : Gen AQIPrediction :=
  (r1 <- Math_random ;;
   r2 <- Math_random ;;
   gret {| predictedAQI :=
             add (ToNumber currentAqi) (sub (mul r1 (Num 20)) (Num 10));
           confidence := Num 0.85;
           trend := if gtb r2 (Num 0.5) then improving else worsening |})%gen.

Definition make_current (waqiData : WaqiData) (currentAqi : jsval)
  : Gen Current.t :=
  (p <- make_prediction currentAqi ;;
   gret {| Current.timestamp := toISOString env;
           Current.temperature := or_else (chain waqiData t) (Num 25);
           Current.humidity := or_else (chain waqiData h) (Num 60);
           Current.co2 := or_else (chain waqiData co) (Num 400);
           Current.aqi :=
             {| CurrentAqi.value := currentAqi;
                CurrentAqi.category := getAqiCategory currentAqi;
                CurrentAqi.pollutants :=
                  {| pm25 := chain waqiData i_pm25;
                     no2 := chain waqiData i_no2;
                     so2 := chain waqiData i_so2;
                     o3 := chain waqiData i_o3 |};
                CurrentAqi.prediction := Some p |} |})%gen.

Definition make_hourly (waqiData : WaqiData) (currentAqi : jsval) (i : nat)
  : Gen Hourly.t :=
  (temp <- or_else_gen (chain waqiData t)
             (r <- Math_random ;;
              gret (add (Num 25) (sub (mul r (Num 5)) (Num 2.5)))) ;;
   hum <- or_else_gen (chain waqiData h)
             (r <- Math_random ;;
              gret (add (Num 60) (sub (mul r (Num 10)) (Num 5)))) ;;
   c <- or_else_gen (chain waqiData co)
             (r <- Math_random ;;
              gret (add (Num 400) (sub (mul r (Num 100)) (Num 50)))) ;;
   a <- generateVariation currentAqi ;;
   gret {| Hourly.hour := hour_label (hoursBefore env i);
           Hourly.temperature := temp;
           Hourly.humidity := hum;
           Hourly.co2 := c;
           Hourly.aqi :=
             {| HourlyAqi.value := a;
                HourlyAqi.pollutants :=
                  {| pm25 := VUndefined;
                     no2 := chain waqiData i_no2;
                     so2 := chain waqiData i_so2;
                     o3 := chain waqiData i_o3 |} |} |})%gen.

Definition make_average (currentAqi : jsval) (lbl : nat -> string) (i : nat)
  : Gen Average :=
  (a <- generateVariation currentAqi ;;
   gret {| label := lbl i; averageAqi := a |})%gen.

Definition make_timeRangeAverages (currentAqi : jsval)
  : Gen TimeRangeAverages :=
  (d <- Array_from 24 (make_average currentAqi hour_label) ;;
   w <- Array_from 4 (make_average currentAqi week_label) ;;
   m <- Array_from 12 (make_average currentAqi (monthShort env)) ;;
   y <- Array_from 5 (make_average currentAqi year_label) ;;
   gret {| daily := d; weekly := w; monthly := m; yearly := y |})%gen.

Definition make_locationAverages (currentAqi : jsval) : list Average :=
  [ {| label := "downtown";
       averageAqi := Math_round (mul (ToNumber currentAqi) (Num 1.2)) |};
    {| label := "suburbs";
       averageAqi := Math_round (mul (ToNumber currentAqi) (Num 0.8)) |};
    {| label := "industrial";
       averageAqi := Math_round (mul (ToNumber currentAqi) (Num 1.4)) |};
    {| label := "residential";
       averageAqi := Math_round (mul (ToNumber currentAqi) (Num 0.9)) |};
    {| label := "parks";
       averageAqi := Math_round (mul (ToNumber currentAqi) (Num 0.7)) |} ].

(** The object literal [processedData], its members evaluated in the
    order they are written. *)
Definition processedData (waqiData : WaqiData) : Gen EnvironmentalData :=
  let currentAqi := of_json (w_aqi waqiData) in
  (cur <- make_current waqiData currentAqi ;;
   hs <- Array_from 24 (make_hourly waqiData currentAqi) ;;
   tr <- make_timeRangeAverages currentAqi ;;
   gret {| current := cur;
           hourly := hs;
           timeRangeAverages := tr;
           locationAverages := make_locationAverages currentAqi |})%gen.

(** The view model built from [waqiData], the first draw being
    [random 0]. *)
Definition view_model (waqiData : WaqiData) : EnvironmentalData :=
  fst (processedData waqiData 0%nat).

Definition fetchEnvironmentalData (city : option string)
  : Js EnvironmentalData :=
  try_catch
    (waqiResponse <- fetchWaqiData (city_or_default city) ;;
     match feed_of (data waqiResponse) with
     | None => throw (TypeError_reading "aqi")
     | Some waqiData => jret (view_model waqiData)
     end)%js
    (fun error =>
       (console_error "Error in fetchEnvironmentalData:" error ;;;
        throw error)%js).

End Service.

(** ** What a call reads from the network *)

(** How the request of a call settles: the URIError of the encoder,
    or what [fetch] settles with for the URL. *)
Definition settles (env : Env) (network : string -> FetchOutcome)
  (city : option string) : JsError + FetchOutcome :=
  match request_url env (city_or_default city) with
  | inl e => inl e
  | inr url => inr (network url)
  end.

(** The [waqiData] a call works on, when the request, the parsing and
    the status test all pass and [data] is not [null]. *)
Definition waqiData_read (env : Env) (network : string -> FetchOutcome)
  (city : option string) : option WaqiData :=
  match settles env network city with
  | inl _ => None
  | inr (Rejected _) => None
  | inr (Resolved r) =>
      if ok r then
        match json r with
        | JsonValue b => if status_not_ok b then None else feed_of (data b)
        | _ => None
        end
      else None
  end.

(** The three causes of failure that concern the request itself. *)
Definition fetch_rejects (s : JsError + FetchOutcome) : Prop :=
  exists e, s = inr (Rejected e).

Definition response_not_ok (s : JsError + FetchOutcome) : Prop :=
  exists r, s = inr (Resolved r) /\ ok r = false.

Definition body_status_not_ok (s : JsError + FetchOutcome) : Prop :=
  exists r b, s = inr (Resolved r) /\ ok r = true /\
              json r = JsonValue b /\ status b <> Some "ok"%string.

(** Three further causes: the city cannot be encoded, the body does not
    parse to an object, or an ['ok'] body has no [data]. *)
Definition city_not_encodable (s : JsError + FetchOutcome) : Prop :=
  exists e, s = inl e.

Definition body_unreadable (s : JsError + FetchOutcome) : Prop :=
  exists r, s = inr (Resolved r) /\ ok r = true /\
            ((exists e, json r = JsonRejected e) \/ json r = JsonNull).

Definition ok_body_without_data (s : JsError + FetchOutcome) : Prop :=
  exists r b, s = inr (Resolved r) /\ ok r = true /\
              json r = JsonValue b /\ status b = Some "ok"%string /\
              data b = NoData.

(** ** Vocabulary of the properties *)

(** The synthetic AQI values of a view model: those of the hourly
    samples, then the averages of the four time-range series. *)
Definition synthetic_values (vm : EnvironmentalData) : list number :=
  map (fun x => HourlyAqi.value (Hourly.aqi x)) (hourly vm)
  ++ map averageAqi (daily (timeRangeAverages vm))
  ++ map averageAqi (weekly (timeRangeAverages vm))
  ++ map averageAqi (monthly (timeRangeAverages vm))
  ++ map averageAqi (yearly (timeRangeAverages vm)).

(** [x] is nonnegative, at most [b + 20], and at least [b - 20] when
    [20 <= b]. *)
Definition in_band (b : Q) (x : number) : Prop :=
  num_le (Num 0) x /\
  num_le x (Num (b + 20)) /\
  (20 <= b -> num_le (Num (b - 20)) x).

(** The same, the upper bound asked only when [-20 <= b]. *)
Definition in_clamped_band (b : Q) (x : number) : Prop :=
  num_le (Num 0) x /\
  (-20 <= b -> num_le x (Num (b + 20))) /\
  (20 <= b -> num_le (Num (b - 20)) x).


(** [Math.random()] returns a value in the half-open interval from 0
    to 1. *)
Definition in_unit_interval (random : nat -> Q) : Prop :=
  forall k, 0 <= random k < 1.

(** A reading is absent or zero. *)
Definition absent_or_zero (x : jsval) : Prop :=
  x = VUndefined \/ exists q, x = VNumber (Num q) /\ q == 0.

(** The eight upstream values the module reads. *)
Definition same_readings (w1 w2 : WaqiData) : Prop :=
  w_aqi w1 = w_aqi w2 /\
  chain w1 t = chain w2 t /\
  chain w1 h = chain w2 h /\
  chain w1 co = chain w2 co /\
  chain w1 i_pm25 = chain w2 i_pm25 /\
  chain w1 i_no2 = chain w2 i_no2 /\
  chain w1 i_so2 = chain w2 i_so2 /\
  chain w1 i_o3 = chain w2 i_o3.

(** The AQI reading and the four pollutant readings only. *)
Definition same_aqi_and_pollutants (w1 w2 : WaqiData) : Prop :=
  w_aqi w1 = w_aqi w2 /\
  chain w1 i_pm25 = chain w2 i_pm25 /\
  chain w1 i_no2 = chain w2 i_no2 /\
  chain w1 i_so2 = chain w2 i_so2 /\
  chain w1 i_o3 = chain w2 i_o3.

(** Two environments show the same clock and locale to a call: the
    same timestamp, the same hour of the day for each of the 24 hours
    counted back, the same short name for each of the twelve months. *)
Definition same_clock_and_locale (env1 env2 : Env) : Prop :=
  toISOString env1 = toISOString env2 /\
  (forall i, (i < 24)%nat -> hoursBefore env1 i = hoursBefore env2 i) /\
  (forall i, (i < 12)%nat -> monthShort env1 i = monthShort env2 i).

(** Two oracles return the same first [n] values. *)
Definition same_draws (n : nat) (random1 random2 : nat -> Q) : Prop :=
  forall k, (k < n)%nat -> random1 k = random2 k.

(** [lo <= x <= hi] *)
Definition in_closed_range (lo hi : Q) (x : number) : Prop :=
  num_le (Num lo) x /\ num_le x (Num hi).

(** ** Sample inputs *)

Module Sample.

(** The cities of the selector are letters only: the encoder leaves them
    as they are. *)
Definition env : Env :=
  {| WAQI_API_KEY := "demo";
     encodeURIComponent := fun s => inr s;
     toISOString := "2024-05-01T10:00:00.000Z";
     hoursBefore := fun i => ((34 - i mod 24) mod 24)%nat;
     monthShort := fun i =>
       nth i ["Jan"; "Feb"; "Mar"; "Apr"; "May"; "Jun"; "Jul"; "Aug";
              "Sep"; "Oct"; "Nov"; "Dec"]%string ""%string |}.

Definition reading (q : Q) : option Reading := Some {| v := Some q |}.

(** A feed with the given [aqi] and temperature reading; humidity is
    absent and the CO reading is zero. *)
Definition feed (a temp : Q) : WaqiData :=
  {| w_aqi := Some a;
     iaqi := Some {| t := reading temp; h := None; co := reading 0;
                     i_pm25 := reading 55; i_no2 := None;
                     i_so2 := None; i_o3 := reading 12 |} |}.

(** A feed with the given [aqi] and NO2, SO2 and O3 readings, and no
    other reading. *)
Definition feed_with (a n s o : Q) : WaqiData :=
  {| w_aqi := Some a;
     iaqi := Some {| t := None; h := None; co := None;
                     i_pm25 := None; i_no2 := reading n;
                     i_so2 := reading s; i_o3 := reading o |} |}.

(** Another key, and other names past the twelfth month: the clock and
    the locale a call sees are those of [env]. *)
Definition other_env : Env :=
  {| WAQI_API_KEY := "other";
     encodeURIComponent := fun s => inr s;
     toISOString := "2024-05-01T10:00:00.000Z";
     hoursBefore := fun i => ((34 - i mod 24) mod 24)%nat;
     monthShort := fun i =>
       nth i ["Jan"; "Feb"; "Mar"; "Apr"; "May"; "Jun"; "Jul"; "Aug";
              "Sep"; "Oct"; "Nov"; "Dec"]%string "?"%string |}.

Definition body (st : string) (d : BodyData) : JsonOutcome :=
  JsonValue {| status := Some st; data := d |}.

(** Every URL is answered alike. *)
Definition serve (okay : bool) (j : JsonOutcome) : string -> FetchOutcome :=
  fun _ => Resolved {| ok := okay; json := j |}.

Definition serve_feed (w : WaqiData) : string -> FetchOutcome :=
  serve true (body "ok" (Feed w)).

(** [Math.random()] returning the same value at every call. *)
Definition always (q : Q) : nat -> Q := fun _ => q.

End Sample.

(** ** The dashboard component [src/components/EnvironmentalAnalytics.tsx]

    The component is modelled by the data it computes: its helper
    functions, the state it keeps, one run of [fetchData] on that state,
    and the branch its render takes. Every value thrown in the model is
    an Error object, so [err instanceof Error] holds and the banner text
    is [err.message]. *)

Module Range.
Inductive t : Type := daily | weekly | monthly | yearly.
End Range.

Definition getAqiColor (value : jsval) : string :=
  if leb (ToNumber value) (Num 50) then "#00E396"
  else if leb (ToNumber value) (Num 100) then "#FEB019"
  else if leb (ToNumber value) (Num 150) then "#FF4560"
  else if leb (ToNumber value) (Num 200) then "#775DD0"
  else if leb (ToNumber value) (Num 300) then "#FF1010"
  else "#7A0000".

Inductive Icon : Type := ArrowUpIcon | ArrowDownIcon | ArrowRightIcon.

Record TrendConfig : Type := {
  icon : Icon;
  color : string;
  text : string
}.

(** The entry of [config] that [TrendIndicator] renders. *)
Definition TrendIndicator (tr : Trend) : TrendConfig :=
  match tr with
  | improving =>
      {| icon := ArrowDownIcon; color := "text-green-500"; text := "Improving" |}
  | stable =>
      {| icon := ArrowRightIcon; color := "text-blue-500"; text := "Stable" |}
  | worsening =>
      {| icon := ArrowUpIcon; color := "text-red-500"; text := "Worsening" |}
  end.

Module Bar.
Record t : Type := {
  period : string;
  value : number
}.
End Bar.

Definition to_bar (d : Average) : Bar.t :=
  {| Bar.period := label d; Bar.value := averageAqi d |}.

Definition getTimeRangeData (selectedTimeRange : Range.t)
  (envData : EnvironmentalData) : list Bar.t :=
  match selectedTimeRange with
  | Range.daily => map to_bar (daily (timeRangeAverages envData))
  | Range.weekly => map to_bar (weekly (timeRangeAverages envData))
  | Range.monthly => map to_bar (monthly (timeRangeAverages envData))
  | Range.yearly => map to_bar (yearly (timeRangeAverages envData))
  end.

(** [a ?? d]: the right operand only when the left one is [undefined]. *)
Definition nullish_or (a : jsval) (d : number) : number :=
  match a with
  | VUndefined => d
  | VNumber n => n
  end.

Inductive PollutantKey : Type := key_pm25 | key_no2 | key_so2 | key_o3.

Definition member (p : Pollutants) (k : PollutantKey) : jsval :=
  match k with
  | key_pm25 => pm25 p
  | key_no2 => no2 p
  | key_so2 => so2 p
  | key_o3 => o3 p
  end.

Definition getPollutantValue (envData : EnvironmentalData)
  (pollutant : PollutantKey) : number :=
  nullish_or
    (member (CurrentAqi.pollutants (Current.aqi (current envData))) pollutant)
    (Num 0).

(** [x > high ? '(High)' : x > moderate ? '(Moderate)' : '(Normal)'], the
    note of a pollutant card. *)
Definition level_note (high moderate : Q) (x : number) : string :=
  if gtb x (Num high) then "(High)"
  else if gtb x (Num moderate) then "(Moderate)"
  else "(Normal)".

Definition no2_note (envData : EnvironmentalData) : string :=
  level_note 100 50 (getPollutantValue envData key_no2).

Definition so2_note (envData : EnvironmentalData) : string :=
  level_note 75 35 (getPollutantValue envData key_so2).

Definition o3_note (envData : EnvironmentalData) : string :=
  level_note 70 50 (getPollutantValue envData key_o3).

(** The callback of [reduce] in [getPrimaryPollutant]. *)
Definition greater_entry (a b : string * number) : string * number :=
  if gtb (snd a) (snd b) then a else b.

(** [Object.entries(values).reduce(greater_entry)[0]]: without an
    initial value, [reduce] starts from the first entry. *)
Definition getPrimaryPollutant (envData : EnvironmentalData) : string :=
  let pollutants := CurrentAqi.pollutants (Current.aqi (current envData)) in
  fst (fold_left greater_entry
         [ ("NO2"%string, nullish_or (no2 pollutants) (Num 0));
           ("SO2"%string, nullish_or (so2 pollutants) (Num 0));
           ("O3"%string, nullish_or (o3 pollutants) (Num 0)) ]
         ("PM2.5"%string, nullish_or (pm25 pollutants) (Num 0))).

(** [Math.round(prediction.confidence * 100)], shown before the percent
    sign. *)
Definition confidence_percent (p : AQIPrediction) : number :=
  Math_round (mul (confidence p) (Num 100)).

Module Component.

Record State : Type := {
  envData : option EnvironmentalData;
  isLoading : bool;
  error : option string;
  selectedTimeRange : Range.t
}.

Definition initial : State :=
  {| envData := None; isLoading := false; error := None;
     selectedTimeRange := Range.daily |}.

Definition setEnvData (d : EnvironmentalData) (st : State) : State :=
  {| envData := Some d; isLoading := isLoading st; error := error st;
     selectedTimeRange := selectedTimeRange st |}.

Definition setIsLoading (b : bool) (st : State) : State :=
  {| envData := envData st; isLoading := b; error := error st;
     selectedTimeRange := selectedTimeRange st |}.

Definition setError (e : option string) (st : State) : State :=
  {| envData := envData st; isLoading := isLoading st; error := e;
     selectedTimeRange := selectedTimeRange st |}.

Definition setSelectedTimeRange (r : Range.t) (st : State) : State :=
  {| envData := envData st; isLoading := isLoading st; error := error st;
     selectedTimeRange := r |}.

(** The state while [fetchEnvironmentalData] is awaited. *)
Definition fetchData_pending (st : State) : State :=
  setError None (setIsLoading true st).

(** One run of [fetchData] to its end: the lines written to the
    console, and the state after the [finally] block. *)
Definition fetchData (env : Env) (network : string -> FetchOutcome)
  (random : nat -> Q) (city : string) (st : State)
  : list (string * JsError) * State :=
  let st1 := fetchData_pending st in
  match fetchEnvironmentalData env network random (Some city) with
  | (l, inr data) => (l, setIsLoading false (setEnvData data st1))
  | (l, inl err) =>
      (l ++ [("Error fetching environmental data:"%string, err)],
       setIsLoading false (setError (Some (message err)) st1))
  end.

Inductive View : Type :=
| LoadingView
| ErrorView (error : string)
| NoDataView
| DashboardView (envData : EnvironmentalData) (selectedTimeRange : Range.t).

(** The branch taken by the render; [if (error)] passes on a string
    that is not empty. *)
Definition render (st : State) : View :=
  if isLoading st then LoadingView
  else
    match error st with
    | Some e =>
        if negb (String.eqb e "") then ErrorView e
        else
          match envData st with
          | None => NoDataView
          | Some d => DashboardView d (selectedTimeRange st)
          end
    | None =>
        match envData st with
        | None => NoDataView
        | Some d => DashboardView d (selectedTimeRange st)
        end
    end.

End Component.

(** The key of [values] under which [getPrimaryPollutant] files a
    pollutant, and the position of that key among the entries. *)
Definition display_name (k : PollutantKey) : string :=
  match k with
  | key_pm25 => "PM2.5"
  | key_no2 => "NO2"
  | key_so2 => "SO2"
  | key_o3 => "O3"
  end.

Definition entry_index (k : PollutantKey) : nat :=
  match k with
  | key_pm25 => 0
  | key_no2 => 1
  | key_so2 => 2
  | key_o3 => 3
  end.

(** The six categories from the mildest to the most severe, and the
    rank of a category among them (6 for any other string). *)
Definition categories : list string :=
  ["Good"; "Moderate"; "Unhealthy for Sensitive Groups"; "Unhealthy";
   "Very Unhealthy"; "Hazardous"]%string.

Fixpoint index_of (c : string) (l : list string) : nat :=
  match l with
  | [] => 0
  | x :: xs => if String.eqb c x then 0 else S (index_of c xs)
  end.

Definition severity (c : string) : nat := index_of c categories.

(** The number of the three readings [t], [h], [co] that are falsy. *)
Definition falsy_readings (w : WaqiData) : nat :=
  (if ToBoolean (chain w t) then 0 else 1)
  + (if ToBoolean (chain w h) then 0 else 1)
  + (if ToBoolean (chain w co) then 0 else 1).

(** Two generators, one run with the oracle [r1] and one with [r2],
    never move the index back and give the same result whenever the
    oracles agree on the draws the first one consumes. *)
Definition local_to_draws (r1 r2 : nat -> Q) {A} (m1 m2 : Gen A) : Prop :=
  forall n,
    (n <= snd (m1 n))%nat /\
    ((forall k, (n <= k < snd (m1 n))%nat -> r1 k = r2 k) -> m1 n = m2 n).

(** ** Concrete runs *)

Example getAqiCategory_50 : getAqiCategory (VNumber (Num 50)) = "Good"%string.
Proof. reflexivity. Qed.

Example getAqiCategory_50_5 :
  getAqiCategory (VNumber (Num 50.5)) = "Moderate"%string.
Proof. reflexivity. Qed.

Example getAqiCategory_300 :
  getAqiCategory (VNumber (Num 300)) = "Very Unhealthy"%string.
Proof. reflexivity. Qed.

Example getAqiCategory_301 :
  getAqiCategory (VNumber (Num 301)) = "Hazardous"%string.
Proof. reflexivity. Qed.

Example getAqiCategory_undefined :
  getAqiCategory VUndefined = "Hazardous"%string.
Proof. reflexivity. Qed.

Example request_url_delhi :
  request_url Sample.env "delhi" =
  inr "https://api.waqi.info/feed/delhi/?token=demo"%string.
Proof. reflexivity. Qed.

(** An error status: the message of the service becomes the message of
    the error, logged by both [catch] blocks and thrown to the caller. *)
Example unknown_station :
  fetchEnvironmentalData Sample.env
    (Sample.serve true (Sample.body "error" (Message "Unknown station")))
    (Sample.always 0.5) None =
  ([("Error fetching WAQI data:"%string, Error "Unknown station");
    ("Error in fetchEnvironmentalData:"%string, Error "Unknown station")],
   inl (Error "Unknown station")).
Proof. reflexivity. Qed.

(** The hour labels count back from the hour of the clock. *)
Example hour_labels :
  map Hourly.hour
    (firstn 3 (hourly (view_model Sample.env (Sample.always 0.5)
                         (Sample.feed 100 30)))) =
  ["10:00"; "09:00"; "08:00"]%string.
Proof. reflexivity. Qed.

Example daily_labels :
  map label
    (firstn 3 (daily (timeRangeAverages
                        (view_model Sample.env (Sample.always 0.5)
                           (Sample.feed 100 30))))) =
  ["00:00"; "01:00"; "02:00"]%string.
Proof. reflexivity. Qed.

Example weekly_labels :
  map label
    (weekly (timeRangeAverages
               (view_model Sample.env (Sample.always 0.5)
                  (Sample.feed 100 30)))) =
  ["Week 1"; "Week 2"; "Week 3"; "Week 4"]%string.
Proof. reflexivity. Qed.

Example yearly_labels :
  map label
    (yearly (timeRangeAverages
               (view_model Sample.env (Sample.always 0.5)
                  (Sample.feed 100 30)))) =
  ["2020"; "2021"; "2022"; "2023"; "2024"]%string.
Proof. reflexivity. Qed.

(** The first sample of [Sample.feed]: the temperature is the reading,
    the absent humidity and the zero CO reading get their default plus
    an offset. *)
Example first_hourly_sample :
  option_map
    (fun x => (Hourly.temperature x, Hourly.humidity x, Hourly.co2 x))
    (hd_error (hourly (view_model Sample.env (Sample.always 0.5)
                         (Sample.feed 100 30)))) =
  Some (Num 30, Num (60 + (0.5 * 10 - 5)), Num (400 + (0.5 * 100 - 50))).
Proof. reflexivity. Qed.

(** A draw skipped by [||] shifts the later ones: when the [k]-th
    draw is [k / 1000], the first hourly AQI value of [Sample.feed] uses
    the draw of index 4, after two for the prediction and two for
    humidity and co2 (none for the temperature); for a feed without
    [iaqi] it uses the draw of index 5. *)
Example draws_in_order :
  option_map (fun x => HourlyAqi.value (Hourly.aqi x))
    (hd_error (hourly (view_model Sample.env
                         (fun k => inject_Z (Z.of_nat k) / 1000)
                         (Sample.feed 100 30)))) =
  Some (Math_max (Num 0) (Num (100 + (inject_Z 4 / 1000 * 40 - 20)))).
Proof. reflexivity. Qed.

Example draws_in_order_no_iaqi :
  option_map (fun x => HourlyAqi.value (Hourly.aqi x))
    (hd_error (hourly (view_model Sample.env
                         (fun k => inject_Z (Z.of_nat k) / 1000)
                         {| w_aqi := Some 100; iaqi := None |}))) =
  Some (Math_max (Num 0) (Num (100 + (inject_Z 5 / 1000 * 40 - 20)))).
Proof. reflexivity. Qed.

(** ** Generic facts: the monads *)

Lemma mapM_length {A B} (f : A -> Gen B) (l : list A) (n : nat) :
  length (fst (mapM f l n)) = length l.
Proof.
  revert n. induction l as [|x xs IH]; intros n; simpl; [reflexivity|].
  unfold gbind. destruct (f x n) as [y n1].
  specialize (IH n1). destruct (mapM f xs n1) as [ys n2].
  simpl in *. now rewrite IH.
Qed.

Lemma mapM_Forall2 {A B} (R : A -> B -> Prop) (f : A -> Gen B) (l : list A) :
  (forall x k, In x l -> R x (fst (f x k))) ->
  forall n, Forall2 R l (fst (mapM f l n)).
Proof.
  induction l as [|x xs IH]; intros HR n; simpl; [constructor|].
  unfold gbind. pose proof (HR x n (or_introl eq_refl)) as Hx.
  destruct (f x n) as [y n1].
  assert (IH' : Forall2 R xs (fst (mapM f xs n1))).
  { apply IH. intros z k Hz. apply HR. now right. }
  destruct (mapM f xs n1) as [ys n2]. simpl in *. now constructor.
Qed.

Lemma mapM_Forall {A B} (P : B -> Prop) (f : A -> Gen B) (l : list A) :
  (forall x k, In x l -> P (fst (f x k))) ->
  forall n, Forall P (fst (mapM f l n)).
Proof.
  intros HP n.
  assert (H2 : Forall2 (fun _ y => P y) l (fst (mapM f l n)))
    by (apply mapM_Forall2; assumption).
  clear HP. induction H2 as [|x y xs ys Hy _ IH].
  - apply Forall_nil.
  - apply Forall_cons; assumption.
Qed.

Lemma mapM_ext {A B} (f g : A -> Gen B) (l : list A) :
  (forall x n, f x n = g x n) ->
  forall n, mapM f l n = mapM g l n.
Proof.
  intros Hfg. induction l as [|x xs IH]; intros n; simpl; [reflexivity|].
  unfold gbind. rewrite Hfg. destruct (g x n) as [y n1].
  rewrite IH. reflexivity.
Qed.

Lemma Array_from_length {A} (len : nat) (f : nat -> Gen A) (n : nat) :
  length (fst (Array_from len f n)) = len.
Proof. unfold Array_from. now rewrite mapM_length, length_seq. Qed.

Lemma Array_from_Forall {A} (P : A -> Prop) (len : nat) (f : nat -> Gen A) :
  (forall i k, P (fst (f i k))) ->
  forall n, Forall P (fst (Array_from len f n)).
Proof. intros HP n. apply mapM_Forall. intros; apply HP. Qed.

(** ** Generic facts: numbers *)

Lemma leb_false_Num (x y : Q) : leb (Num x) (Num y) = false <-> y < x.
Proof.
  simpl. split; intros Hf.
  - apply Qnot_le_lt. intros Hle. apply Qle_bool_iff in Hle. congruence.
  - apply not_true_is_false. intros Ht. apply Qle_bool_iff in Ht.
    apply (Qlt_not_le _ _ Hf Ht).
Qed.

(** ** How a call completes *)

Section Completion.

Variable env : Env.
Variable network : string -> FetchOutcome.
Variable random : nat -> Q.

(** What [fetchWaqiData] throws or returns, cause by cause. *)
Lemma fetchWaqiData_completion (city : option string) :
  completion (fetchWaqiData env network (city_or_default city)) =
  match settles env network city with
  | inl e => inl e
  | inr (Rejected e) => inl e
  | inr (Resolved r) =>
      if ok r then
        match json r with
        | JsonRejected e => inl e
        | JsonNull => inl (TypeError_reading "status")
        | JsonValue b =>
            if status_not_ok b then inl (Error (data_or_default b))
            else inr b
        end
      else inl (Error "Failed to fetch WAQI data")
  end.
Proof.
  unfold fetchWaqiData, settles.
  destruct (request_url env (city_or_default city)) as [e|url];
    [reflexivity|].
  destruct (network url) as [e|r]; [reflexivity|].
  destruct (ok r); [|reflexivity]. simpl negb. cbv iota.
  destruct (json r) as [e| |b]; try reflexivity.
  destruct (status_not_ok b); reflexivity.
Qed.

(** The outer [catch] rethrows what it caught. *)
Lemma outer_catch_rethrows (city : option string) (e : JsError) :
  throws (fetchWaqiData env network (city_or_default city)) e ->
  throws (fetchEnvironmentalData env network random city) e.
Proof.
  unfold throws, fetchEnvironmentalData.
  destruct (fetchWaqiData env network (city_or_default city)) as [l [e'|b]];
    simpl; intros H; [injection H as ->; reflexivity | discriminate].
Qed.

Lemma fetch_completion (city : option string) :
  completion (fetchEnvironmentalData env network random city) =
  match completion (fetchWaqiData env network (city_or_default city)) with
  | inl e => inl e
  | inr b =>
      match feed_of (data b) with
      | None => inl (TypeError_reading "aqi")
      | Some w => inr (view_model env random w)
      end
  end.
Proof.
  unfold fetchEnvironmentalData.
  destruct (fetchWaqiData env network (city_or_default city)) as [l [e|b]];
    simpl; [reflexivity|].
  destruct (feed_of (data b)); reflexivity.
Qed.

(** A call returns exactly when it read a [waqiData], and then
    returns the view model built from it. *)
Lemma fetch_returns_iff (city : option string) (vm : EnvironmentalData) :
  returns (fetchEnvironmentalData env network random city) vm <->
  exists w, waqiData_read env network city = Some w /\
            vm = view_model env random w.
Proof.
  unfold returns. rewrite fetch_completion, fetchWaqiData_completion.
  unfold waqiData_read.
  destruct (settles env network city) as [e|[e|r]];
    try (split; [discriminate | intros (w & Hw & _); discriminate]).
  destruct (ok r).
  2:{ split; [discriminate | intros (w & Hw & _); discriminate]. }
  destruct (json r) as [e| |b];
    try (split; [discriminate | intros (w & Hw & _); discriminate]).
  destruct (status_not_ok b).
  { split; [discriminate | intros (w & Hw & _); discriminate]. }
  destruct (feed_of (data b)) as [w|].
  - split.
    + intros H. exists w. split; [reflexivity | congruence].
    + intros (w' & Hw & ->). congruence.
  - split; [discriminate | intros (w & Hw & _); discriminate].
Qed.

Lemma fetch_throws_iff (city : option string) :
  (exists e, throws (fetchEnvironmentalData env network random city) e) <->
  waqiData_read env network city = None.
Proof.
  unfold throws. rewrite fetch_completion, fetchWaqiData_completion.
  unfold waqiData_read.
  destruct (settles env network city) as [e|[e|r]];
    try (split; [reflexivity | eauto]).
  destruct (ok r); [| split; [reflexivity | eauto]].
  destruct (json r) as [e| |b]; try (split; [reflexivity | eauto]).
  destruct (status_not_ok b); [split; [reflexivity | eauto]|].
  destruct (feed_of (data b)) as [w|].
  - split; [intros (e & He); discriminate | discriminate].
  - split; [reflexivity | eauto].
Qed.

Lemma status_not_ok_false (b : WaqiBody) :
  status_not_ok b = false <-> status b = Some "ok"%string.
Proof.
  unfold status_not_ok. destruct (status b) as [s|].
  - rewrite negb_false_iff, String.eqb_eq.
    split; [intros ->; reflexivity | intros [= ->]; reflexivity].
  - split; discriminate.
Qed.

Lemma waqiData_read_None (city : option string) :
  waqiData_read env network city = None <->
  fetch_rejects (settles env network city) \/
  response_not_ok (settles env network city) \/
  body_status_not_ok (settles env network city) \/
  city_not_encodable (settles env network city) \/
  body_unreadable (settles env network city) \/
  ok_body_without_data (settles env network city).
Proof.
  unfold waqiData_read, fetch_rejects, response_not_ok, body_status_not_ok,
    city_not_encodable, body_unreadable, ok_body_without_data.
  destruct (settles env network city) as [e|[e|r]].
  { split; [intros _; do 3 right; left; eauto | reflexivity]. }
  { split; [intros _; left; eauto | reflexivity]. }
  destruct (ok r) eqn:Hok.
  2:{ split; [intros _; right; left; eauto | reflexivity]. }
  destruct (json r) as [e| |b] eqn:Hj.
  { split; [intros _ | reflexivity].
    do 4 right. left. exists r. repeat split; eauto. }
  { split; [intros _ | reflexivity].
    do 4 right. left. exists r. repeat split; eauto. }
  destruct (status_not_ok b) eqn:Hs.
  { split; [intros _ | reflexivity].
    right. right. left. exists r, b. repeat split; auto.
    intros Hst. apply status_not_ok_false in Hst. congruence. }
  apply status_not_ok_false in Hs.
  destruct (data b) as [|s|w] eqn:Hd; simpl.
  - split; [intros _ | reflexivity].
    do 5 right. exists r, b. repeat split; auto.
  - split; [discriminate|].
    intros [(e & He) | [(r' & Hr' & Hok') | [(r' & b' & Hr' & _ & Hj' & Hst)
      | [(e & He) | [(r' & Hr' & _ & Hj')
      | (r' & b' & Hr' & _ & Hj' & _ & Hd')]]]]];
      try discriminate; injection Hr' as <-; try congruence.
    destruct Hj' as [(e & He) | He]; congruence.
  - split; [discriminate|].
    intros [(e & He) | [(r' & Hr' & Hok') | [(r' & b' & Hr' & _ & Hj' & Hst)
      | [(e & He) | [(r' & Hr' & _ & Hj')
      | (r' & b' & Hr' & _ & Hj' & _ & Hd')]]]]];
      try discriminate; injection Hr' as <-; try congruence.
    destruct Hj' as [(e & He) | He]; congruence.
Qed.

End Completion.

(** ** The members of the view model *)

Section ViewModel.

Variable env : Env.
Variable random : nat -> Q.
Variable w : WaqiData.

Let c : jsval := of_json (w_aqi w).

Lemma make_current_eq (n : nat) :
  make_current env random w c n =
  ({| Current.timestamp := toISOString env;
      Current.temperature := or_else (chain w t) (Num 25);
      Current.humidity := or_else (chain w h) (Num 60);
      Current.co2 := or_else (chain w co) (Num 400);
      Current.aqi :=
        {| CurrentAqi.value := c;
           CurrentAqi.category := getAqiCategory c;
           CurrentAqi.pollutants :=
             {| pm25 := chain w i_pm25; no2 := chain w i_no2;
                so2 := chain w i_so2; o3 := chain w i_o3 |};
           CurrentAqi.prediction :=
             Some {| predictedAQI :=
                       add (ToNumber c)
                         (sub (mul (Num (random n)) (Num 20)) (Num 10));
                     confidence := Num 0.85;
                     trend := if gtb (Num (random (S n))) (Num 0.5)
                              then improving else worsening |} |} |},
   S (S n)).
Proof. reflexivity. Qed.

Lemma view_model_current :
  current (view_model env random w) = fst (make_current env random w c 0%nat).
Proof.
  unfold view_model, processedData. fold c. unfold gbind at 1.
  rewrite make_current_eq. unfold gbind.
  destruct (Array_from 24 (make_hourly env random w c) 2%nat) as [hs n1].
  destruct (make_timeRangeAverages env random c n1) as [tr n2].
  reflexivity.
Qed.

Lemma view_model_hourly :
  hourly (view_model env random w) =
  fst (Array_from 24 (make_hourly env random w c) 2%nat).
Proof.
  unfold view_model, processedData. fold c. unfold gbind at 1.
  rewrite make_current_eq. unfold gbind.
  destruct (Array_from 24 (make_hourly env random w c) 2%nat) as [hs n1].
  destruct (make_timeRangeAverages env random c n1) as [tr n2].
  reflexivity.
Qed.

Lemma view_model_timeRangeAverages :
  exists n,
    timeRangeAverages (view_model env random w) =
    fst (make_timeRangeAverages env random c n).
Proof.
  unfold view_model, processedData. fold c. unfold gbind at 1.
  rewrite make_current_eq. unfold gbind.
  destruct (Array_from 24 (make_hourly env random w c) 2%nat) as [hs n1].
  exists n1.
  destruct (make_timeRangeAverages env random c n1) as [tr n2].
  reflexivity.
Qed.

Lemma view_model_locationAverages :
  locationAverages (view_model env random w) = make_locationAverages c.
Proof.
  unfold view_model, processedData. fold c. unfold gbind at 1.
  rewrite make_current_eq. unfold gbind.
  destruct (Array_from 24 (make_hourly env random w c) 2%nat) as [hs n1].
  destruct (make_timeRangeAverages env random c n1) as [tr n2].
  reflexivity.
Qed.

(** The four series are four [Array.from] calls, one after the other. *)
Lemma timeRangeAverages_parts (n : nat) :
  exists n1 n2 n3,
    let tr := fst (make_timeRangeAverages env random c n) in
    daily tr = fst (Array_from 24 (make_average random c hour_label) n) /\
    weekly tr = fst (Array_from 4 (make_average random c week_label) n1) /\
    monthly tr =
      fst (Array_from 12 (make_average random c (monthShort env)) n2) /\
    yearly tr = fst (Array_from 5 (make_average random c year_label) n3).
Proof.
  unfold make_timeRangeAverages, gbind.
  destruct (Array_from 24 _ n) as [d n1]. exists n1.
  destruct (Array_from 4 _ n1) as [wk n2]. exists n2.
  destruct (Array_from 12 _ n2) as [m n3]. exists n3.
  destruct (Array_from 5 _ n3) as [y n4].
  simpl. auto.
Qed.

End ViewModel.

(** ** Successful calls *)

Lemma returns_view_model (env : Env) (network : string -> FetchOutcome)
  (random : nat -> Q) (city : option string) (w : WaqiData)
  (vm : EnvironmentalData) :
  waqiData_read env network city = Some w ->
  returns (fetchEnvironmentalData env network random city) vm ->
  vm = view_model env random w.
Proof.
  intros Hw Hr. apply fetch_returns_iff in Hr.
  destruct Hr as (w' & Hw' & ->). congruence.
Qed.

Lemma serve_feed_read (w : WaqiData) (city : option string) :
  waqiData_read Sample.env (Sample.serve_feed w) city = Some w.
Proof. reflexivity. Qed.

Lemma serve_feed_returns (random : nat -> Q) (w : WaqiData)
  (city : option string) :
  returns (fetchEnvironmentalData Sample.env (Sample.serve_feed w) random city)
          (view_model Sample.env random w).
Proof. apply fetch_returns_iff. exists w. split; reflexivity. Qed.

(** ** The category thresholds *)

Ltac q_cases :=
  repeat match goal with
    | H : Qle_bool _ _ = true |- _ => apply Qle_bool_iff in H
    | H : Qle_bool ?x ?y = false |- _ =>
        apply (proj1 (leb_false_Num x y)) in H
    end.

(** C4, as stated, fails at [NaN]: every comparison is false there, so the
    function falls through to ['Hazardous'] although [NaN > 300] does not
    hold. *)
Lemma C4_counterexample :
  getAqiCategory (VNumber NaN) = "Hazardous"%string /\
  ~ num_lt (Num 300) NaN.
Proof. split; [reflexivity | simpl; tauto]. Qed.

(** C4, amended: [getAqiCategory] is total and returns one of the six
    categories, fixed by the thresholds 50, 100, 150, 200 and 300, with
    ['Hazardous'] returned iff [aqi > 300] or [aqi] is [NaN]; and every
    successful call sets [current.aqi.category] to
    [getAqiCategory(current.aqi.value)]. *)
Theorem C4_category_thresholds :
  (forall a : number,
      In (getAqiCategory (VNumber a))
         ["Good"; "Moderate"; "Unhealthy for Sensitive Groups"; "Unhealthy";
          "Very Unhealthy"; "Hazardous"]%string /\
      (getAqiCategory (VNumber a) = "Good"%string <-> num_le a (Num 50)) /\
      (getAqiCategory (VNumber a) = "Moderate"%string <->
         num_lt (Num 50) a /\ num_le a (Num 100)) /\
      (getAqiCategory (VNumber a) = "Unhealthy for Sensitive Groups"%string <->
         num_lt (Num 100) a /\ num_le a (Num 150)) /\
      (getAqiCategory (VNumber a) = "Unhealthy"%string <->
         num_lt (Num 150) a /\ num_le a (Num 200)) /\
      (getAqiCategory (VNumber a) = "Very Unhealthy"%string <->
         num_lt (Num 200) a /\ num_le a (Num 300)) /\
      (getAqiCategory (VNumber a) = "Hazardous"%string <->
         num_lt (Num 300) a \/ a = NaN)) /\
  (forall env network random city vm,
      returns (fetchEnvironmentalData env network random city) vm ->
      CurrentAqi.category (Current.aqi (current vm)) =
      getAqiCategory (CurrentAqi.value (Current.aqi (current vm)))).
Proof.
  split.
  - intros [|q].
    + simpl. repeat split; try discriminate; try tauto; auto 10.
      all: intros [? ?]; contradiction.
    + unfold getAqiCategory, ToNumber, leb, num_le, num_lt.
      destruct (Qle_bool q 50) eqn:E1;
        [|destruct (Qle_bool q 100) eqn:E2;
          [|destruct (Qle_bool q 150) eqn:E3;
            [|destruct (Qle_bool q 200) eqn:E4;
              [|destruct (Qle_bool q 300) eqn:E5]]]];
        q_cases; (split; [simpl; auto 10|]);
        repeat split; intros; try discriminate; try reflexivity; try lra.
      all: try (destruct H; try discriminate; lra).
  - intros env network random city vm Hr.
    apply fetch_returns_iff in Hr. destruct Hr as (w & _ & ->).
    rewrite view_model_current. reflexivity.
Qed.

(** A successful call on a feed whose [aqi] is 100. *)
Lemma C4_category_thresholds_witness :
  let vm := view_model Sample.env (Sample.always 0.5) (Sample.feed 100 30) in
  CurrentAqi.category (Current.aqi (current vm)) =
  getAqiCategory (CurrentAqi.value (Current.aqi (current vm))).
Proof.
  apply (proj2 C4_category_thresholds Sample.env
           (Sample.serve_feed (Sample.feed 100 30)) (Sample.always 0.5) None).
  unfold returns. reflexivity.
Defined.

(** ** Shape of the view model *)

(** C5: a successful call returns exactly 24 hourly samples, 24 daily,
    4 weekly, 12 monthly and 5 yearly averages, and the five location
    averages labelled downtown, suburbs, industrial, residential, parks,
    in that order. *)
Theorem C5_fixed_shape (env : Env) (network : string -> FetchOutcome)
  (random : nat -> Q) (city : option string) (vm : EnvironmentalData) :
  returns (fetchEnvironmentalData env network random city) vm ->
  length (hourly vm) = 24%nat /\
  length (daily (timeRangeAverages vm)) = 24%nat /\
  length (weekly (timeRangeAverages vm)) = 4%nat /\
  length (monthly (timeRangeAverages vm)) = 12%nat /\
  length (yearly (timeRangeAverages vm)) = 5%nat /\
  map label (locationAverages vm) =
    ["downtown"; "suburbs"; "industrial"; "residential"; "parks"]%string.
Proof.
  intros Hr. apply fetch_returns_iff in Hr. destruct Hr as (w & _ & ->).
  rewrite view_model_hourly, view_model_locationAverages.
  destruct (view_model_timeRangeAverages env random w) as (n & ->).
  destruct (timeRangeAverages_parts env random w n) as (n1 & n2 & n3 & Hp).
  cbv zeta in Hp. destruct Hp as (-> & -> & -> & ->).
  rewrite !Array_from_length. repeat split; reflexivity.
Qed.

Lemma C5_fixed_shape_witness :
  let vm := view_model Sample.env (Sample.always 0.5) (Sample.feed 100 30) in
  length (hourly vm) = 24%nat /\
  length (daily (timeRangeAverages vm)) = 24%nat /\
  length (weekly (timeRangeAverages vm)) = 4%nat /\
  length (monthly (timeRangeAverages vm)) = 12%nat /\
  length (yearly (timeRangeAverages vm)) = 5%nat /\
  map label (locationAverages vm) =
    ["downtown"; "suburbs"; "industrial"; "residential"; "parks"]%string.
Proof.
  apply (C5_fixed_shape Sample.env (Sample.serve_feed (Sample.feed 100 30))
           (Sample.always 0.5) None).
  unfold returns. reflexivity.
Defined.

(** ** The current reading *)

(** C7: a successful call copies the upstream [aqi] into
    [current.aqi.value] as it is; no arithmetic is applied to it. *)
Theorem C7_current_aqi_verbatim (env : Env) (network : string -> FetchOutcome)
  (random : nat -> Q) (city : option string) (w : WaqiData)
  (vm : EnvironmentalData) :
  waqiData_read env network city = Some w ->
  returns (fetchEnvironmentalData env network random city) vm ->
  CurrentAqi.value (Current.aqi (current vm)) = of_json (w_aqi w).
Proof.
  intros Hw Hr. rewrite (returns_view_model _ _ _ _ _ _ Hw Hr).
  rewrite view_model_current. reflexivity.
Qed.

Lemma C7_current_aqi_verbatim_witness :
  CurrentAqi.value
    (Current.aqi
       (current (view_model Sample.env (Sample.always 0.5) (Sample.feed 137 30)))) =
  VNumber (Num 137).
Proof.
  apply (C7_current_aqi_verbatim Sample.env
           (Sample.serve_feed (Sample.feed 137 30)) (Sample.always 0.5) None
           (Sample.feed 137 30)).
  - reflexivity.
  - unfold returns. reflexivity.
Defined.

(** ** The synthetic values *)

Section Synthetic.

Variable env : Env.
Variable random : nat -> Q.

Lemma generateVariation_eq (c : jsval) (k : nat) :
  generateVariation random c k =
  (Math_max (Num 0)
     (add (ToNumber c) (sub (mul (Num (random k)) (Num 40)) (Num 20))),
   S k).
Proof. reflexivity. Qed.

Lemma make_average_value (c : jsval) (lbl : nat -> string) (i k : nat) :
  averageAqi (fst (make_average random c lbl i k)) =
  fst (generateVariation random c k).
Proof. reflexivity. Qed.

(** The AQI value of an hourly sample is one call of
    [generateVariation], at a draw that depends on how many of the
    three [||] before it were short-circuited. *)
Lemma make_hourly_value (w : WaqiData) (c : jsval) (i k : nat) :
  exists k',
    HourlyAqi.value (Hourly.aqi (fst (make_hourly env random w c i k))) =
    fst (generateVariation random c k').
Proof.
  unfold make_hourly, or_else_gen.
  destruct (ToBoolean (chain w t)), (ToBoolean (chain w h)),
    (ToBoolean (chain w co)); simpl; eexists; reflexivity.
Qed.

Lemma synthetic_values_generated (w : WaqiData) :
  Forall (fun x => exists k,
              x = fst (generateVariation random (of_json (w_aqi w)) k))
         (synthetic_values (view_model env random w)).
Proof.
  unfold synthetic_values.
  rewrite view_model_hourly.
  destruct (view_model_timeRangeAverages env random w) as (n & ->).
  destruct (timeRangeAverages_parts env random w n) as (n1 & n2 & n3 & Hp).
  cbv zeta in Hp. destruct Hp as (-> & -> & -> & ->).
  repeat (apply Forall_app; split); apply Forall_map, Array_from_Forall;
    intros i k.
  - apply make_hourly_value.
  - exists k. apply make_average_value.
  - exists k. apply make_average_value.
  - exists k. apply make_average_value.
  - exists k. apply make_average_value.
Qed.

(** The band of one call of [generateVariation] on a numeric base. *)
Lemma generateVariation_band (b : Q) (k : nat) :
  0 <= random k < 1 ->
  in_clamped_band b (fst (generateVariation random (VNumber (Num b)) k)).
Proof.
  intros [Hlo Hhi]. rewrite generateVariation_eq.
  unfold in_clamped_band, Math_max, add, sub, mul, lift2, ToNumber, fst, num_le.
  destruct (Qle_bool 0 (b + (random k * 40 - 20))) eqn:E; q_cases;
    repeat split; intros; lra.
Qed.

End Synthetic.

(** C8, as stated, fails for an upstream AQI below -20: the clamp at 0
    lifts the value above [b + 20]. With [aqi = -100] and a draw of 0.5
    the first hourly value is 0, and [0 <= -80] does not hold. *)
Lemma C8_counterexample :
  let vm := view_model Sample.env (Sample.always 0.5) (Sample.feed (-100) 30) in
  in_unit_interval (Sample.always 0.5) /\
  returns (fetchEnvironmentalData Sample.env
             (Sample.serve_feed (Sample.feed (-100) 30))
             (Sample.always 0.5) None) vm /\
  nth_error (synthetic_values vm) 0 = Some (Num 0) /\
  ~ in_band (-100) (Num 0).
Proof.
  cbv zeta. split; [|split; [|split]].
  - intros k. unfold Sample.always. lra.
  - unfold returns. reflexivity.
  - reflexivity.
  - unfold in_band, num_le. intros (_ & H & _). lra.
Qed.

(** C8, amended: with upstream AQI [b], every synthetic AQI value (each
    hourly value and every average of the daily, weekly, monthly and
    yearly series) is nonnegative, is at most [b + 20] whenever
    [b >= -20], and is at least [b - 20] whenever [b >= 20]. *)
Theorem C8_synthetic_band (env : Env) (network : string -> FetchOutcome)
  (random : nat -> Q) (city : option string) (w : WaqiData) (b : Q)
  (vm : EnvironmentalData) :
  in_unit_interval random ->
  waqiData_read env network city = Some w ->
  w_aqi w = Some b ->
  returns (fetchEnvironmentalData env network random city) vm ->
  Forall (in_clamped_band b) (synthetic_values vm).
Proof.
  intros Hrand Hw Hb Hr. rewrite (returns_view_model _ _ _ _ _ _ Hw Hr).
  eapply Forall_impl; [|apply synthetic_values_generated].
  intros x (k & ->). rewrite Hb. simpl of_json.
  apply generateVariation_band, Hrand.
Qed.

Lemma C8_synthetic_band_witness :
  Forall (in_clamped_band 100)
    (synthetic_values
       (view_model Sample.env (Sample.always 0.5) (Sample.feed 100 30))).
Proof.
  apply (C8_synthetic_band Sample.env (Sample.serve_feed (Sample.feed 100 30))
           (Sample.always 0.5) None (Sample.feed 100 30) 100).
  - intros k. unfold Sample.always. lra.
  - reflexivity.
  - reflexivity.
  - unfold returns. reflexivity.
Defined.

(** ** The prediction *)




(** ** Precedence of [||] over [+] in the hourly samples *)

Lemma chain_falsy (w : WaqiData) (m : Iaqi -> option Reading) :
  ToBoolean (chain w m) = false -> absent_or_zero (chain w m).
Proof.
  unfold chain, absent_or_zero.
  destruct (iaqi w) as [i|]; [|now left].
  destruct (m i) as [r|]; [|now left].
  destruct (v r) as [q|]; [|now left].
  simpl. intros Hq. right. exists q. split; [reflexivity|].
  apply Qeq_bool_iff. now apply negb_false_iff.
Qed.

Section HourlySamples.

Variable env : Env.
Variable random : nat -> Q.
Variable w : WaqiData.
Variable c : jsval.

Lemma make_hourly_temperature (i k : nat) :
  Hourly.temperature (fst (make_hourly env random w c i k)) =
  if ToBoolean (chain w t) then ToNumber (chain w t)
  else add (Num 25) (sub (mul (Num (random k)) (Num 5)) (Num 2.5)).
Proof.
  unfold make_hourly, or_else_gen.
  destruct (ToBoolean (chain w t)), (ToBoolean (chain w h)),
    (ToBoolean (chain w co)); reflexivity.
Qed.

Lemma make_hourly_humidity (i k : nat) :
  exists k',
    Hourly.humidity (fst (make_hourly env random w c i k)) =
    if ToBoolean (chain w h) then ToNumber (chain w h)
    else add (Num 60) (sub (mul (Num (random k')) (Num 10)) (Num 5)).
Proof.
  unfold make_hourly, or_else_gen.
  destruct (ToBoolean (chain w t)), (ToBoolean (chain w h)),
    (ToBoolean (chain w co)); simpl;
    first [ exists k; reflexivity | exists (S k); reflexivity
          | exists (S (S k)); reflexivity ].
Qed.

Lemma make_hourly_co2 (i k : nat) :
  exists k',
    Hourly.co2 (fst (make_hourly env random w c i k)) =
    if ToBoolean (chain w co) then ToNumber (chain w co)
    else add (Num 400) (sub (mul (Num (random k')) (Num 100)) (Num 50)).
Proof.
  unfold make_hourly, or_else_gen.
  destruct (ToBoolean (chain w t)), (ToBoolean (chain w h)),
    (ToBoolean (chain w co)); simpl;
    first [ exists k; reflexivity | exists (S k); reflexivity
          | exists (S (S k)); reflexivity ].
Qed.

End HourlySamples.

(** C10: [v || 25 + offset] is [v || (25 + offset)]. After a successful
    call, when the upstream [iaqi.t.v] (respectively [iaqi.h.v],
    [iaqi.co.v]) is truthy, each of the 24 hourly samples has
    temperature (respectively humidity, co2) equal to that reading, which
    is also the current one, with no random variation; when the reading
    is falsy it is absent or zero, and each sample is the default plus a
    random offset. *)
Theorem C10_hourly_readings (env : Env) (network : string -> FetchOutcome)
  (random : nat -> Q) (city : option string) (w : WaqiData)
  (vm : EnvironmentalData) :
  waqiData_read env network city = Some w ->
  returns (fetchEnvironmentalData env network random city) vm ->
  length (hourly vm) = 24%nat /\
  (ToBoolean (chain w t) = true ->
     Forall (fun x => Hourly.temperature x = ToNumber (chain w t) /\
                      Hourly.temperature x = Current.temperature (current vm))
            (hourly vm)) /\
  (ToBoolean (chain w h) = true ->
     Forall (fun x => Hourly.humidity x = ToNumber (chain w h) /\
                      Hourly.humidity x = Current.humidity (current vm))
            (hourly vm)) /\
  (ToBoolean (chain w co) = true ->
     Forall (fun x => Hourly.co2 x = ToNumber (chain w co) /\
                      Hourly.co2 x = Current.co2 (current vm))
            (hourly vm)) /\
  (ToBoolean (chain w t) = false ->
     absent_or_zero (chain w t) /\
     Forall (fun x => exists k,
                 Hourly.temperature x =
                 add (Num 25) (sub (mul (Num (random k)) (Num 5)) (Num 2.5)))
            (hourly vm)) /\
  (ToBoolean (chain w h) = false ->
     absent_or_zero (chain w h) /\
     Forall (fun x => exists k,
                 Hourly.humidity x =
                 add (Num 60) (sub (mul (Num (random k)) (Num 10)) (Num 5)))
            (hourly vm)) /\
  (ToBoolean (chain w co) = false ->
     absent_or_zero (chain w co) /\
     Forall (fun x => exists k,
                 Hourly.co2 x =
                 add (Num 400) (sub (mul (Num (random k)) (Num 100)) (Num 50)))
            (hourly vm)).
Proof.
  intros Hw Hr. rewrite (returns_view_model _ _ _ _ _ _ Hw Hr).
  rewrite view_model_hourly, view_model_current, make_current_eq.
  cbn [fst Current.temperature Current.humidity Current.co2].
  unfold or_else.
  split; [apply Array_from_length|].
  split; [|split; [|split; [|split; [|split]]]]; intros Hb; rewrite ?Hb.
  - apply Array_from_Forall; intros i k.
    rewrite make_hourly_temperature, Hb. auto.
  - apply Array_from_Forall; intros i k.
    destruct (make_hourly_humidity env random w (of_json (w_aqi w)) i k)
      as (k' & ->). rewrite Hb. auto.
  - apply Array_from_Forall; intros i k.
    destruct (make_hourly_co2 env random w (of_json (w_aqi w)) i k)
      as (k' & ->). rewrite Hb. auto.
  - split; [apply chain_falsy; assumption|].
    apply Array_from_Forall; intros i k.
    exists k. rewrite make_hourly_temperature, Hb. reflexivity.
  - split; [apply chain_falsy; assumption|].
    apply Array_from_Forall; intros i k.
    destruct (make_hourly_humidity env random w (of_json (w_aqi w)) i k)
      as (k' & ->). rewrite Hb. eauto.
  - split; [apply chain_falsy; assumption|].
    apply Array_from_Forall; intros i k.
    destruct (make_hourly_co2 env random w (of_json (w_aqi w)) i k)
      as (k' & ->). rewrite Hb. eauto.
Qed.

(** A feed whose temperature reading is 30: every hourly sample shows
    30. *)
Lemma C10_hourly_readings_witness :
  Forall (fun x => Hourly.temperature x = Num 30 /\
                   Hourly.temperature x =
                   Current.temperature
                     (current (view_model Sample.env (Sample.always 0.5)
                                 (Sample.feed 100 30))))
    (hourly (view_model Sample.env (Sample.always 0.5) (Sample.feed 100 30))).
Proof.
  refine (proj1 (proj2
    (C10_hourly_readings Sample.env (Sample.serve_feed (Sample.feed 100 30))
       (Sample.always 0.5) None (Sample.feed 100 30) _ _ _)) _).
  - reflexivity.
  - unfold returns. reflexivity.
  - reflexivity.
Defined.

(** ** Failure and success of a call *)

(** C3, as stated, fails on an ['ok'] body without [data]: the request
    resolves, the response is ok and the status is ['ok'], yet reading
    [aqi] off the missing [data] throws a TypeError. *)
Lemma C3_counterexample :
  let network := Sample.serve true (Sample.body "ok" NoData) in
  let city := Some "delhi"%string in
  (exists e,
      name e = "TypeError"%string /\
      throws (fetchEnvironmentalData Sample.env network (Sample.always 0.5)
                city) e) /\
  ~ (fetch_rejects (settles Sample.env network city) \/
     response_not_ok (settles Sample.env network city) \/
     body_status_not_ok (settles Sample.env network city)).
Proof.
  cbv zeta. split.
  { exists (TypeError_reading "aqi"). split; reflexivity. }
  intros [(e & He) | [(r & Hr & Hok) | (r & b & Hr & _ & Hj & Hs)]].
  - discriminate.
  - injection Hr as <-. discriminate.
  - injection Hr as <-. injection Hj as <-. apply Hs. reflexivity.
Qed.

(** ** What the view model owes to the upstream response *)

Section Dependence.

Variable env : Env.

Lemma make_hourly_same_readings (random : nat -> Q) (w1 w2 : WaqiData)
  (c : jsval) (i k : nat) :
  same_readings w1 w2 ->
  make_hourly env random w1 c i k = make_hourly env random w2 c i k.
Proof.
  intros (_ & Ht & Hh & Hco & _ & Hno2 & Hso2 & Ho3).
  unfold make_hourly. rewrite Ht, Hh, Hco, Hno2, Hso2, Ho3. reflexivity.
Qed.

Lemma processedData_same_readings (random : nat -> Q) (w1 w2 : WaqiData)
  (n : nat) :
  same_readings w1 w2 ->
  processedData env random w1 n = processedData env random w2 n.
Proof.
  intros Hs. pose proof Hs as (Ha & Ht & Hh & Hco & Hpm & Hno2 & Hso2 & Ho3).
  unfold processedData, gbind. rewrite !make_current_eq.
  rewrite Ha, Ht, Hh, Hco, Hpm, Hno2, Hso2, Ho3.
  unfold Array_from.
  rewrite (mapM_ext _ (make_hourly env random w2 (of_json (w_aqi w2))));
    [reflexivity|].
  intros i k. apply make_hourly_same_readings, Hs.
Qed.

End Dependence.

(** C6, as stated, fails: the temperature shown comes from the
    upstream [iaqi.t.v]. Two responses with the same AQI and the same
    pollutant readings, one with temperature 30 and one with 35, give
    view models whose current temperatures are 30 and 35. *)
Lemma C6_counterexample :
  let w1 := Sample.feed 100 30 in
  let w2 := Sample.feed 100 35 in
  let vm1 := view_model Sample.env (Sample.always 0.5) w1 in
  let vm2 := view_model Sample.env (Sample.always 0.5) w2 in
  same_aqi_and_pollutants w1 w2 /\
  returns (fetchEnvironmentalData Sample.env (Sample.serve_feed w1)
             (Sample.always 0.5) None) vm1 /\
  returns (fetchEnvironmentalData Sample.env (Sample.serve_feed w2)
             (Sample.always 0.5) None) vm2 /\
  Current.temperature (current vm1) = Num 30 /\
  Current.temperature (current vm2) = Num 35 /\
  ~ num_eq (Num 30) (Num 35).
Proof.
  cbv zeta. repeat split.
  simpl. intros H. lra.
Qed.

(** ** Randomness *)

(** C1, as stated, fails: two runs over the same response differ as
    soon as [Math.random()] does. With every draw 0 the trend is
    ['worsening'], with every draw 0.75 it is ['improving']. *)
Lemma C1_counterexample :
  let network := Sample.serve_feed (Sample.feed 100 30) in
  let vm1 := view_model Sample.env (Sample.always 0) (Sample.feed 100 30) in
  let vm2 := view_model Sample.env (Sample.always 0.75) (Sample.feed 100 30) in
  in_unit_interval (Sample.always 0) /\
  in_unit_interval (Sample.always 0.75) /\
  returns (fetchEnvironmentalData Sample.env network (Sample.always 0) None)
          vm1 /\
  returns (fetchEnvironmentalData Sample.env network (Sample.always 0.75) None)
          vm2 /\
  option_map trend (CurrentAqi.prediction (Current.aqi (current vm1))) =
    Some worsening /\
  option_map trend (CurrentAqi.prediction (Current.aqi (current vm2))) =
    Some improving /\
  vm1 <> vm2.
Proof.
  cbv zeta. split; [|split; [|split; [|split; [|split; [|split]]]]];
    try (intros k; unfold Sample.always; lra);
    try (unfold returns; reflexivity).
  intros H.
  apply (f_equal (fun vm =>
           option_map trend
             (CurrentAqi.prediction (Current.aqi (current vm))))) in H.
  discriminate H.
Qed.


(** * Further properties *)

(** ** Colours and categories *)

(** X1: [getAqiColor] and [getAqiCategory] cut the scale at the same
    thresholds: each colour goes with exactly one category, for every
    value, [NaN] and [undefined] included. *)
Theorem X1_color_matches_category (a : jsval) :
  (getAqiColor a = "#00E396"%string <-> getAqiCategory a = "Good"%string) /\
  (getAqiColor a = "#FEB019"%string <-> getAqiCategory a = "Moderate"%string) /\
  (getAqiColor a = "#FF4560"%string <->
     getAqiCategory a = "Unhealthy for Sensitive Groups"%string) /\
  (getAqiColor a = "#775DD0"%string <-> getAqiCategory a = "Unhealthy"%string) /\
  (getAqiColor a = "#FF1010"%string <->
     getAqiCategory a = "Very Unhealthy"%string) /\
  (getAqiColor a = "#7A0000"%string <-> getAqiCategory a = "Hazardous"%string).
Proof.
  unfold getAqiColor, getAqiCategory.
  destruct (leb (ToNumber a) (Num 50));
    [|destruct (leb (ToNumber a) (Num 100));
      [|destruct (leb (ToNumber a) (Num 150));
        [|destruct (leb (ToNumber a) (Num 200));
          [|destruct (leb (ToNumber a) (Num 300))]]]];
    repeat split; intros H; try reflexivity; discriminate H.
Qed.

(** ** Pollutant cards *)

Lemma gtb_true (x y : Q) : gtb (Num x) (Num y) = true <-> y < x.
Proof.
  simpl. rewrite negb_true_iff. apply leb_false_Num.
Qed.

Lemma gtb_false (x y : Q) : gtb (Num x) (Num y) = false <-> x <= y.
Proof.
  simpl. rewrite negb_false_iff. apply Qle_bool_iff.
Qed.

Ltac gt_cases :=
  repeat match goal with
    | H : gtb (Num _) (Num _) = true |- _ => apply gtb_true in H
    | H : gtb (Num _) (Num _) = false |- _ => apply gtb_false in H
    end.

(** X2: [getPrimaryPollutant], when no value is [NaN], returns the name
    of a pollutant whose value is the greatest of the four; among equal
    greatest values it returns the last in the order PM2.5, NO2, SO2, O3,
    so that with no reading at all it answers O3. *)
Theorem X2_primary_pollutant (envData : EnvironmentalData) :
  (forall k, getPollutantValue envData k <> NaN) ->
  (exists k,
      getPrimaryPollutant envData = display_name k /\
      (forall k', num_le (getPollutantValue envData k')
                         (getPollutantValue envData k)) /\
      (forall k', (entry_index k < entry_index k')%nat ->
                  num_lt (getPollutantValue envData k')
                         (getPollutantValue envData k))) /\
  ((forall k,
       member (CurrentAqi.pollutants (Current.aqi (current envData))) k =
       VUndefined) ->
   getPrimaryPollutant envData = "O3"%string).
Proof.
  intros Hn. unfold getPrimaryPollutant, getPollutantValue in *.
  set (p := CurrentAqi.pollutants (Current.aqi (current envData))) in *.
  split.
  - pose proof (Hn key_pm25) as H1. pose proof (Hn key_no2) as H2.
    pose proof (Hn key_so2) as H3. pose proof (Hn key_o3) as H4.
    simpl member in *.
    destruct (nullish_or (pm25 p) (Num 0)) as [|q1] eqn:V1; [congruence|].
    destruct (nullish_or (no2 p) (Num 0)) as [|q2] eqn:V2; [congruence|].
    destruct (nullish_or (so2 p) (Num 0)) as [|q3] eqn:V3; [congruence|].
    destruct (nullish_or (o3 p) (Num 0)) as [|q4] eqn:V4; [congruence|].
    clear Hn H1 H2 H3 H4.
    unfold fold_left, greater_entry. cbn [snd].
    destruct (gtb (Num q1) (Num q2)) eqn:E12; cbn [snd];
      [destruct (gtb (Num q1) (Num q3)) eqn:E13
      |destruct (gtb (Num q2) (Num q3)) eqn:E23]; cbn [snd];
      [destruct (gtb (Num q1) (Num q4)) eqn:E14
      |destruct (gtb (Num q3) (Num q4)) eqn:E34
      |destruct (gtb (Num q2) (Num q4)) eqn:E24
      |destruct (gtb (Num q3) (Num q4)) eqn:E34]; cbn [fst]; gt_cases.
    all: first
      [ exists key_pm25; split; [reflexivity|]; split; intros [];
          cbn [member entry_index]; rewrite ?V1, ?V2, ?V3, ?V4;
          cbn [num_le num_lt]; intros; try lia; lra
      | exists key_no2; split; [reflexivity|]; split; intros [];
          cbn [member entry_index]; rewrite ?V1, ?V2, ?V3, ?V4;
          cbn [num_le num_lt]; intros; try lia; lra
      | exists key_so2; split; [reflexivity|]; split; intros [];
          cbn [member entry_index]; rewrite ?V1, ?V2, ?V3, ?V4;
          cbn [num_le num_lt]; intros; try lia; lra
      | exists key_o3; split; [reflexivity|]; split; intros [];
          cbn [member entry_index]; rewrite ?V1, ?V2, ?V3, ?V4;
          cbn [num_le num_lt]; intros; try lia; lra ].
  - intros Hu.
    pose proof (Hu key_pm25) as H1. pose proof (Hu key_no2) as H2.
    pose proof (Hu key_so2) as H3. pose proof (Hu key_o3) as H4.
    simpl in H1, H2, H3, H4. rewrite H1, H2, H3, H4. reflexivity.
Qed.

(** Readings 55 for PM2.5 and 12 for O3, none for NO2 and SO2: PM2.5 is
    the primary pollutant. *)
Lemma X2_primary_pollutant_witness :
  exists k,
    getPrimaryPollutant
      (view_model Sample.env (Sample.always 0.5) (Sample.feed 100 30)) =
    display_name k /\
    (forall k',
        num_le
          (getPollutantValue
             (view_model Sample.env (Sample.always 0.5) (Sample.feed 100 30)) k')
          (getPollutantValue
             (view_model Sample.env (Sample.always 0.5) (Sample.feed 100 30)) k)) /\
    (forall k', (entry_index k < entry_index k')%nat ->
        num_lt
          (getPollutantValue
             (view_model Sample.env (Sample.always 0.5) (Sample.feed 100 30)) k')
          (getPollutantValue
             (view_model Sample.env (Sample.always 0.5) (Sample.feed 100 30)) k)).
Proof.
  apply (X2_primary_pollutant
           (view_model Sample.env (Sample.always 0.5) (Sample.feed 100 30))).
  intros []; vm_compute; discriminate.
Defined.

(** X3: the note of a pollutant card follows the reading: when every
    pollutant value of one view model is at most the value of another,
    a card marked (High) in the first is marked (High) in the second,
    and a card marked (Normal) in the second is marked (Normal) in the
    first. *)
Theorem X3_notes_monotone (d1 d2 : EnvironmentalData) :
  (forall k, num_le (getPollutantValue d1 k) (getPollutantValue d2 k)) ->
  (no2_note d1 = "(High)"%string -> no2_note d2 = "(High)"%string) /\
  (no2_note d2 = "(Normal)"%string -> no2_note d1 = "(Normal)"%string) /\
  (so2_note d1 = "(High)"%string -> so2_note d2 = "(High)"%string) /\
  (so2_note d2 = "(Normal)"%string -> so2_note d1 = "(Normal)"%string) /\
  (o3_note d1 = "(High)"%string -> o3_note d2 = "(High)"%string) /\
  (o3_note d2 = "(Normal)"%string -> o3_note d1 = "(Normal)"%string).
Proof.
  intros Hle. unfold no2_note, so2_note, o3_note, level_note.
  pose proof (Hle key_no2) as H2. pose proof (Hle key_so2) as H3.
  pose proof (Hle key_o3) as H4.
  destruct (getPollutantValue d1 key_no2) as [|a2],
    (getPollutantValue d2 key_no2) as [|b2]; try contradiction.
  destruct (getPollutantValue d1 key_so2) as [|a3],
    (getPollutantValue d2 key_so2) as [|b3]; try contradiction.
  destruct (getPollutantValue d1 key_o3) as [|a4],
    (getPollutantValue d2 key_o3) as [|b4]; try contradiction.
  simpl in H2, H3, H4.
  repeat split;
    repeat match goal with
      | |- context [gtb (Num ?x) (Num ?y)] =>
          let E := fresh "E" in destruct (gtb (Num x) (Num y)) eqn:E
      end;
    gt_cases; intros H; try reflexivity; try discriminate H; lra.
Qed.

(** NO2 rises from 120 to 150, SO2 from 40 to 80 and O3 from 20 to 40.
    The NO2 card is marked (High) at 120, hence at 150; the O3 card is
    marked (Normal) at 40, hence at 20. *)
Lemma X3_notes_monotone_witness :
  no2_note (view_model Sample.env (Sample.always 0.5)
              (Sample.feed_with 100 150 80 40)) = "(High)"%string /\
  o3_note (view_model Sample.env (Sample.always 0.5)
             (Sample.feed_with 100 120 40 20)) = "(Normal)"%string.
Proof.
  refine ((fun H =>
             conj (proj1 H eq_refl)
               (proj2 (proj2 (proj2 (proj2 (proj2 H)))) eq_refl))
            (X3_notes_monotone
               (view_model Sample.env (Sample.always 0.5)
                  (Sample.feed_with 100 120 40 20))
               (view_model Sample.env (Sample.always 0.5)
                  (Sample.feed_with 100 150 80 40))
               _)).
  intros []; vm_compute; discriminate.
Defined.

(** X4: a pollutant card shows the upstream reading as it is, zero
    included, and shows 0 with the note (Normal) when the reading is
    absent. *)
Theorem X4_pollutant_cards (env : Env) (network : string -> FetchOutcome)
  (random : nat -> Q) (city : option string) (w : WaqiData)
  (vm : EnvironmentalData) :
  waqiData_read env network city = Some w ->
  returns (fetchEnvironmentalData env network random city) vm ->
  getPollutantValue vm key_pm25 = nullish_or (chain w i_pm25) (Num 0) /\
  getPollutantValue vm key_no2 = nullish_or (chain w i_no2) (Num 0) /\
  getPollutantValue vm key_so2 = nullish_or (chain w i_so2) (Num 0) /\
  getPollutantValue vm key_o3 = nullish_or (chain w i_o3) (Num 0) /\
  (forall q, chain w i_no2 = VNumber (Num q) ->
             getPollutantValue vm key_no2 = Num q) /\
  (chain w i_no2 = VUndefined ->
   getPollutantValue vm key_no2 = Num 0 /\ no2_note vm = "(Normal)"%string) /\
  (chain w i_so2 = VUndefined ->
   getPollutantValue vm key_so2 = Num 0 /\ so2_note vm = "(Normal)"%string) /\
  (chain w i_o3 = VUndefined ->
   getPollutantValue vm key_o3 = Num 0 /\ o3_note vm = "(Normal)"%string).
Proof.
  intros Hw Hr. rewrite (returns_view_model _ _ _ _ _ _ Hw Hr).
  unfold no2_note, so2_note, o3_note, getPollutantValue.
  rewrite view_model_current, make_current_eq. cbn [fst Current.aqi
    CurrentAqi.pollutants member pm25 no2 so2 o3].
  do 4 (split; [reflexivity|]).
  split; [intros q ->; reflexivity|].
  split; [|split]; intros ->; split; reflexivity.
Qed.

(** [Sample.feed] has no NO2 reading. *)
Lemma X4_pollutant_cards_witness :
  getPollutantValue
    (view_model Sample.env (Sample.always 0.5) (Sample.feed 100 30)) key_no2 =
  Num 0 /\
  no2_note (view_model Sample.env (Sample.always 0.5) (Sample.feed 100 30)) =
  "(Normal)"%string.
Proof.
  refine (proj1 (proj2 (proj2 (proj2 (proj2 (proj2
    (X4_pollutant_cards Sample.env (Sample.serve_feed (Sample.feed 100 30))
       (Sample.always 0.5) None (Sample.feed 100 30) _ _
       _)))))) _).
  - reflexivity.
  - unfold returns. reflexivity.
  - reflexivity.
Defined.

(** ** The console *)

Section Console.

Variable env : Env.
Variable network : string -> FetchOutcome.
Variable random : nat -> Q.

Lemma fetchWaqiData_console (c : string) :
  console (fetchWaqiData env network c) =
  match completion (fetchWaqiData env network c) with
  | inl e => [("Error fetching WAQI data:"%string, e)]
  | inr _ => []
  end.
Proof.
  unfold fetchWaqiData.
  destruct (request_url env c) as [e|url]; [reflexivity|].
  destruct (network url) as [e|r]; [reflexivity|].
  destruct (ok r); [|reflexivity]. simpl negb. cbv iota.
  destruct (json r) as [e| |b]; try reflexivity.
  destruct (status_not_ok b); reflexivity.
Qed.

Lemma fetch_console (city : option string) :
  console (fetchEnvironmentalData env network random city) =
  match completion (fetchWaqiData env network (city_or_default city)) with
  | inl e => [("Error fetching WAQI data:"%string, e);
              ("Error in fetchEnvironmentalData:"%string, e)]
  | inr b =>
      match feed_of (data b) with
      | None => [("Error in fetchEnvironmentalData:"%string,
                  TypeError_reading "aqi")]
      | Some _ => []
      end
  end.
Proof.
  unfold fetchEnvironmentalData.
  pose proof (fetchWaqiData_console (city_or_default city)) as Hc.
  destruct (fetchWaqiData env network (city_or_default city)) as [l [e|b]];
    unfold console, completion in *; simpl in *; subst l; [reflexivity|].
  destruct (feed_of (data b)); reflexivity.
Qed.

End Console.

(** X5: what a call writes to the console: nothing when it returns; when
    [fetchWaqiData] throws, two lines, one from each [catch] block, both
    carrying the error thrown; when an ['ok'] body has no [data], the one
    line of the outer [catch]. *)
Theorem X5_console_lines (env : Env) (network : string -> FetchOutcome)
  (random : nat -> Q) (city : option string) :
  (forall vm,
      returns (fetchEnvironmentalData env network random city) vm ->
      console (fetchEnvironmentalData env network random city) = []) /\
  (forall e,
      throws (fetchWaqiData env network (city_or_default city)) e ->
      console (fetchEnvironmentalData env network random city) =
      [("Error fetching WAQI data:"%string, e);
       ("Error in fetchEnvironmentalData:"%string, e)]) /\
  (forall b,
      returns (fetchWaqiData env network (city_or_default city)) b ->
      data b = NoData ->
      console (fetchEnvironmentalData env network random city) =
      [("Error in fetchEnvironmentalData:"%string, TypeError_reading "aqi")]).
Proof.
  split; [|split].
  - intros vm Hr. unfold returns in Hr.
    rewrite fetch_completion in Hr. rewrite fetch_console.
    destruct (completion (fetchWaqiData env network (city_or_default city)))
      as [e|b]; [discriminate|].
    destruct (feed_of (data b)); [reflexivity | discriminate].
  - intros e He. unfold throws in He. rewrite fetch_console, He. reflexivity.
  - intros b Hb Hd. unfold returns in Hb.
    rewrite fetch_console, Hb, Hd. reflexivity.
Qed.

(** A request that rejects is logged twice. *)
Lemma X5_console_lines_witness :
  console
    (fetchEnvironmentalData Sample.env
       (fun _ => Rejected (Error "offline")) (Sample.always 0.5) None) =
  [("Error fetching WAQI data:"%string, Error "offline");
   ("Error in fetchEnvironmentalData:"%string, Error "offline")].
Proof.
  apply (proj1 (proj2 (X5_console_lines Sample.env
           (fun _ => Rejected (Error "offline")) (Sample.always 0.5) None))).
  reflexivity.
Defined.

(** ** One run of [fetchData] in the component *)

Section FetchData.

Variable env : Env.
Variable network : string -> FetchOutcome.
Variable random : nat -> Q.
Variable city : string.


Lemma fetchData_throws (st : Component.State) (e : JsError) :
  throws (fetchEnvironmentalData env network random (Some city)) e ->
  Component.fetchData env network random city st =
  (console (fetchEnvironmentalData env network random (Some city))
     ++ [("Error fetching environmental data:"%string, e)],
   {| Component.envData := Component.envData st;
      Component.isLoading := false;
      Component.error := Some (message e);
      Component.selectedTimeRange := Component.selectedTimeRange st |}).
Proof.
  unfold Component.fetchData, throws, console, completion.
  destruct (fetchEnvironmentalData env network random (Some city)) as [l [e'|d]];
    simpl; intros H; [|discriminate].
  injection H as ->. reflexivity.
Qed.

End FetchData.



(** X7: a run of [fetchData] whose call throws keeps the data loaded
    before and records the message of the error; the render then shows
    the error banner with that message and hides the data, unless the
    message is empty, in which case no banner is shown and the earlier
    data (or the no-data notice) stays on screen. The error is logged
    once more. *)
Theorem X7_fetchData_failure (env : Env) (network : string -> FetchOutcome)
  (random : nat -> Q) (city : string) (st : Component.State) (e : JsError) :
  throws (fetchEnvironmentalData env network random (Some city)) e ->
  let st' := snd (Component.fetchData env network random city st) in
  Component.envData st' = Component.envData st /\
  Component.error st' = Some (message e) /\
  Component.isLoading st' = false /\
  Component.selectedTimeRange st' = Component.selectedTimeRange st /\
  (message e <> ""%string ->
   Component.render st' = Component.ErrorView (message e)) /\
  (message e = ""%string ->
   Component.render st' =
   match Component.envData st with
   | None => Component.NoDataView
   | Some d => Component.DashboardView d (Component.selectedTimeRange st)
   end) /\
  fst (Component.fetchData env network random city st) =
    console (fetchEnvironmentalData env network random (Some city))
    ++ [("Error fetching environmental data:"%string, e)].
Proof.
  intros Ht. cbv zeta. rewrite (fetchData_throws _ _ _ _ st e Ht).
  cbn [fst snd]. unfold Component.render.
  cbn [Component.envData Component.error Component.isLoading
       Component.selectedTimeRange].
  repeat split.
  - intros Hm. destruct (String.eqb_spec (message e) ""); [contradiction|].
    reflexivity.
  - intros ->. reflexivity.
Qed.

(** Data is on screen, the next poll is answered "Unknown station": the
    banner replaces the dashboard. *)
Lemma X7_fetchData_failure_witness :
  Component.render
    (snd (Component.fetchData Sample.env
            (Sample.serve true
               (Sample.body "error" (Message "Unknown station")))
            (Sample.always 0.5) "delhi"
            {| Component.envData :=
                 Some (view_model Sample.env (Sample.always 0.5)
                         (Sample.feed 100 30));
               Component.isLoading := false;
               Component.error := None;
               Component.selectedTimeRange := Range.daily |})) =
  Component.ErrorView "Unknown station".
Proof.
  refine (proj1 (proj2 (proj2 (proj2 (proj2
    (X7_fetchData_failure Sample.env
       (Sample.serve true (Sample.body "error" (Message "Unknown station")))
       (Sample.always 0.5) "delhi" _ (Error "Unknown station") _))))) _).
  - reflexivity.
  - discriminate.
Defined.

(** X8: what the banner says for the failures the service raises
    itself: the fixed text when the response is not ok, the message sent
    by the upstream service when the status is not ['ok'] and that
    message is a non-empty string, the fixed text when it is empty or
    missing. *)
Theorem X8_banner_text (env : Env) (network : string -> FetchOutcome)
  (random : nat -> Q) (city : string) (st : Component.State) (r : Response) :
  settles env network (Some city) = inr (Resolved r) ->
  (ok r = false ->
   Component.render (snd (Component.fetchData env network random city st)) =
   Component.ErrorView "Failed to fetch WAQI data") /\
  (forall b s,
      ok r = true -> json r = JsonValue b -> status b <> Some "ok"%string ->
      data b = Message s -> s <> ""%string ->
      Component.render (snd (Component.fetchData env network random city st)) =
      Component.ErrorView s) /\
  (forall b,
      ok r = true -> json r = JsonValue b -> status b <> Some "ok"%string ->
      data b = Message ""%string \/ data b = NoData ->
      Component.render (snd (Component.fetchData env network random city st)) =
      Component.ErrorView "Failed to fetch WAQI data").
Proof.
  intros Hs.
  assert (Hfail : forall m,
             m <> ""%string ->
             throws (fetchEnvironmentalData env network random (Some city))
                    (Error m) ->
             Component.render
               (snd (Component.fetchData env network random city st)) =
             Component.ErrorView m).
  { intros m Hm Ht. rewrite (fetchData_throws _ _ _ _ st _ Ht).
    cbn [snd]. unfold Component.render.
    cbn [Component.envData Component.error Component.isLoading message Error].
    destruct (String.eqb_spec m ""); [contradiction | reflexivity]. }
  assert (Hthrow : forall e,
             completion
               (fetchWaqiData env network (city_or_default (Some city))) =
             inl e ->
             throws (fetchEnvironmentalData env network random (Some city)) e).
  { intros e He. unfold throws. rewrite fetch_completion, He. reflexivity. }
  split; [|split].
  - intros Hok. apply Hfail; [discriminate|]. apply Hthrow.
    rewrite fetchWaqiData_completion, Hs, Hok. reflexivity.
  - intros b s Hok Hj Hst Hd Hne. apply Hfail; [assumption|]. apply Hthrow.
    rewrite fetchWaqiData_completion, Hs, Hok, Hj.
    destruct (status_not_ok b) eqn:E.
    + unfold data_or_default. rewrite Hd.
      destruct (String.eqb_spec s ""); [contradiction | reflexivity].
    + apply status_not_ok_false in E. contradiction.
  - intros b Hok Hj Hst Hd. apply Hfail; [discriminate|]. apply Hthrow.
    rewrite fetchWaqiData_completion, Hs, Hok, Hj.
    destruct (status_not_ok b) eqn:E.
    + unfold data_or_default. destruct Hd as [-> | ->]; reflexivity.
    + apply status_not_ok_false in E. contradiction.
Qed.

(** The service answers with HTTP status 500. *)
Lemma X8_banner_text_witness :
  Component.render
    (snd (Component.fetchData Sample.env (Sample.serve false JsonNull)
            (Sample.always 0.5) "delhi" Component.initial)) =
  Component.ErrorView "Failed to fetch WAQI data".
Proof.
  refine (proj1
    (X8_banner_text Sample.env (Sample.serve false JsonNull)
       (Sample.always 0.5) "delhi" Component.initial
       {| ok := false; json := JsonNull |} _) _).
  - reflexivity.
  - reflexivity.
Defined.

(** ** How many values of [Math.random()] a call consumes *)

Lemma mapM_state {A B} (f : A -> Gen B) (c : nat) (l : list A) :
  (forall x n, snd (f x n) = (n + c)%nat) ->
  forall n, snd (mapM f l n) = (n + c * length l)%nat.
Proof.
  intros Hf. induction l as [|x xs IH]; intros n; simpl; [lia|].
  unfold gbind. pose proof (Hf x n) as Hx. destruct (f x n) as [y n1].
  pose proof (IH n1) as Hxs. destruct (mapM f xs n1) as [ys n2].
  simpl in *. lia.
Qed.

Lemma Array_from_state {A} (len : nat) (f : nat -> Gen A) (c : nat) :
  (forall i n, snd (f i n) = (n + c)%nat) ->
  forall n, snd (Array_from len f n) = (n + c * len)%nat.
Proof.
  intros Hf n. unfold Array_from. rewrite (mapM_state f c); [|assumption].
  now rewrite length_seq.
Qed.

Section Draws.

Variable env : Env.
Variable random : nat -> Q.

Lemma make_hourly_state (w : WaqiData) (c : jsval) (i n : nat) :
  snd (make_hourly env random w c i n) = (n + (1 + falsy_readings w))%nat.
Proof.
  unfold make_hourly, or_else_gen, falsy_readings.
  destruct (ToBoolean (chain w t)), (ToBoolean (chain w h)),
    (ToBoolean (chain w co)); simpl; lia.
Qed.

Lemma make_average_state (c : jsval) (lbl : nat -> string) (i n : nat) :
  snd (make_average random c lbl i n) = (n + 1)%nat.
Proof. simpl. lia. Qed.

Lemma make_timeRangeAverages_state (c : jsval) (n : nat) :
  snd (make_timeRangeAverages env random c n) = (n + 45)%nat.
Proof.
  unfold make_timeRangeAverages, gbind.
  pose proof (Array_from_state 24 (make_average random c hour_label) 1
                (make_average_state c hour_label) n) as H1.
  destruct (Array_from 24 _ n) as [d n1].
  pose proof (Array_from_state 4 (make_average random c week_label) 1
                (make_average_state c week_label) n1) as H2.
  destruct (Array_from 4 _ n1) as [wk n2].
  pose proof (Array_from_state 12 (make_average random c (monthShort env)) 1
                (make_average_state c (monthShort env)) n2) as H3.
  destruct (Array_from 12 _ n2) as [m n3].
  pose proof (Array_from_state 5 (make_average random c year_label) 1
                (make_average_state c year_label) n3) as H4.
  destruct (Array_from 5 _ n3) as [y n4].
  simpl in *. lia.
Qed.

Lemma processedData_state (w : WaqiData) (n : nat) :
  snd (processedData env random w n) = (n + 71 + 24 * falsy_readings w)%nat.
Proof.
  unfold processedData, gbind. rewrite make_current_eq.
  pose proof (Array_from_state 24
                (make_hourly env random w (of_json (w_aqi w)))
                (1 + falsy_readings w)
                (make_hourly_state w (of_json (w_aqi w))) (S (S n))) as H1.
  destruct (Array_from 24 _ (S (S n))) as [hs n1].
  pose proof (make_timeRangeAverages_state (of_json (w_aqi w)) n1) as H2.
  destruct (make_timeRangeAverages env random (of_json (w_aqi w)) n1)
    as [tr n2].
  simpl in *. lia.
Qed.

End Draws.

(** X9: building one view model consumes exactly [71 + 24 k] values of
    [Math.random()], where [k] counts the readings among temperature,
    humidity and CO that are falsy: 71 when all three are truthy, never
    more than 143. *)
Theorem X9_draws_consumed (env : Env) (random : nat -> Q) (w : WaqiData) :
  snd (processedData env random w 0%nat) =
    (71 + 24 * falsy_readings w)%nat /\
  (71 <= snd (processedData env random w 0%nat) <= 143)%nat /\
  (ToBoolean (chain w t) = true -> ToBoolean (chain w h) = true ->
   ToBoolean (chain w co) = true ->
   snd (processedData env random w 0%nat) = 71%nat) /\
  (iaqi w = None -> snd (processedData env random w 0%nat) = 143%nat).
Proof.
  rewrite processedData_state. unfold falsy_readings.
  split; [reflexivity|]. split; [|split].
  - destruct (ToBoolean (chain w t)), (ToBoolean (chain w h)),
      (ToBoolean (chain w co)); simpl; lia.
  - intros -> -> ->. reflexivity.
  - intros Hi. unfold chain. rewrite Hi. reflexivity.
Qed.

(** A feed without [iaqi]: 143 draws. *)
Lemma X9_draws_consumed_witness :
  snd (processedData Sample.env (Sample.always 0.5)
         {| w_aqi := Some 100; iaqi := None |} 0%nat) = 143%nat.
Proof.
  apply (proj2 (proj2 (proj2
    (X9_draws_consumed Sample.env (Sample.always 0.5)
       {| w_aqi := Some 100; iaqi := None |})))).
  reflexivity.
Defined.

(** ** The view model depends on the draws consumed only *)

Section Locality.

Variable env : Env.
Variables r1 r2 : nat -> Q.

Lemma local_ret {A} (x : A) : local_to_draws r1 r2 (gret x) (gret x).
Proof. intros n. split; [simpl; lia | reflexivity]. Qed.

Lemma local_bind {A B} (m1 m2 : Gen A) (k1 k2 : A -> Gen B) :
  local_to_draws r1 r2 m1 m2 ->
  (forall x, local_to_draws r1 r2 (k1 x) (k2 x)) ->
  local_to_draws r1 r2 (gbind m1 k1) (gbind m2 k2).
Proof.
  intros Hm Hk n. unfold gbind.
  destruct (Hm n) as [Hle Heq].
  destruct (m1 n) as [x n1] eqn:E1. simpl in Hle, Heq.
  destruct (Hk x n1) as [Hle' Heq'].
  split; [lia|].
  intros Hr. rewrite <- Heq by (intros k Hk'; apply Hr; lia).
  apply Heq'. intros k Hk'. apply Hr. lia.
Qed.

Lemma local_Math_random :
  local_to_draws r1 r2 (Math_random r1) (Math_random r2).
Proof.
  intros n. unfold Math_random. simpl. split; [lia|].
  intros Hr. rewrite (Hr n) by lia. reflexivity.
Qed.

Lemma local_mapM {A B} (f1 f2 : A -> Gen B) (l : list A) :
  (forall x, local_to_draws r1 r2 (f1 x) (f2 x)) ->
  local_to_draws r1 r2 (mapM f1 l) (mapM f2 l).
Proof.
  intros Hf. induction l as [|x xs IH]; simpl.
  - apply local_ret.
  - apply local_bind; [apply Hf|]. intros y.
    apply local_bind; [apply IH|]. intros ys. apply local_ret.
Qed.

Lemma local_or_else_gen (v0 : jsval) (d1 d2 : Gen number) :
  local_to_draws r1 r2 d1 d2 ->
  local_to_draws r1 r2 (or_else_gen v0 d1) (or_else_gen v0 d2).
Proof.
  intros Hd. unfold or_else_gen.
  destruct (ToBoolean v0); [apply local_ret | assumption].
Qed.

Lemma local_generateVariation (c : jsval) :
  local_to_draws r1 r2 (generateVariation r1 c) (generateVariation r2 c).
Proof.
  unfold generateVariation.
  apply local_bind; [apply local_Math_random|]. intros r. apply local_ret.
Qed.

Lemma local_make_average (c : jsval) (lbl : nat -> string) (i : nat) :
  local_to_draws r1 r2 (make_average r1 c lbl i) (make_average r2 c lbl i).
Proof.
  unfold make_average.
  apply local_bind; [apply local_generateVariation|]. intros a.
  apply local_ret.
Qed.

Lemma local_make_hourly (w : WaqiData) (c : jsval) (i : nat) :
  local_to_draws r1 r2 (make_hourly env r1 w c i) (make_hourly env r2 w c i).
Proof.
  unfold make_hourly.
  repeat first
    [ apply local_ret
    | apply local_Math_random
    | apply local_generateVariation
    | apply local_or_else_gen
    | apply local_bind; [|intros ?] ].
Qed.

Lemma local_make_current (w : WaqiData) (c : jsval) :
  local_to_draws r1 r2 (make_current env r1 w c) (make_current env r2 w c).
Proof.
  unfold make_current, make_prediction.
  repeat first
    [ apply local_ret
    | apply local_Math_random
    | apply local_bind; [|intros ?] ].
Qed.

Lemma local_make_timeRangeAverages (c : jsval) :
  local_to_draws r1 r2 (make_timeRangeAverages env r1 c)
    (make_timeRangeAverages env r2 c).
Proof.
  unfold make_timeRangeAverages, Array_from.
  repeat first
    [ apply local_ret
    | apply local_mapM; intros ?; apply local_make_average
    | apply local_bind; [|intros ?] ].
Qed.

Lemma local_processedData (w : WaqiData) :
  local_to_draws r1 r2 (processedData env r1 w) (processedData env r2 w).
Proof.
  unfold processedData, Array_from.
  apply local_bind; [apply local_make_current|]. intros cur.
  apply local_bind;
    [apply local_mapM; intros i; apply local_make_hourly|]. intros hs.
  apply local_bind; [apply local_make_timeRangeAverages|]. intros tr.
  apply local_ret.
Qed.

End Locality.

(** X10: the view model depends on the values of [Math.random()] that
    the call consumes and on no later one: two sequences of values that
    agree on the first [71 + 24 k] give the same view model, [k] being
    the number of falsy readings among temperature, humidity and CO. *)
Theorem X10_only_consumed_draws_matter (env : Env) (random1 random2 : nat -> Q)
  (w : WaqiData) :
  (forall k, (k < 71 + 24 * falsy_readings w)%nat -> random1 k = random2 k) ->
  view_model env random1 w = view_model env random2 w.
Proof.
  intros Hr. unfold view_model.
  destruct (local_processedData env random1 random2 w 0%nat) as [_ Heq].
  rewrite Heq; [reflexivity|].
  intros k Hk. apply Hr. rewrite processedData_state in Hk. lia.
Qed.

(** [Sample.feed] has two falsy readings, so 119 draws are consumed:
    a change of the 120th and later values is not seen. *)
Lemma X10_only_consumed_draws_matter_witness :
  view_model Sample.env
    (fun k => if (k <? 119)%nat then 0.5 else 0.25) (Sample.feed 100 30) =
  view_model Sample.env (Sample.always 0.5) (Sample.feed 100 30).
Proof.
  apply (X10_only_consumed_draws_matter Sample.env
           (fun k => if (k <? 119)%nat then 0.5 else 0.25) (Sample.always 0.5)
           (Sample.feed 100 30)).
  intros k Hk. simpl in Hk.
  destruct (Nat.ltb_spec k 119); [reflexivity | lia].
Defined.

(** ** The location averages *)

Lemma Math_round_le (x y : Q) :
  x <= y ->
  exists zx zy,
    Math_round (Num x) = Num (inject_Z zx) /\
    Math_round (Num y) = Num (inject_Z zy) /\ (zx <= zy)%Z.
Proof.
  intros Hxy. exists (Qfloor (x + 0.5)), (Qfloor (y + 0.5)).
  split; [reflexivity|]. split; [reflexivity|].
  apply Qfloor_resp_le. lra.
Qed.

(** X11: for a nonnegative upstream AQI the five location averages are
    nonnegative integers in a fixed order, whatever the random values:
    industrial is the greatest, then downtown, residential, suburbs, and
    parks is the least. *)
Theorem X11_location_order (env : Env) (network : string -> FetchOutcome)
  (random : nat -> Q) (city : option string) (w : WaqiData) (b : Q)
  (vm : EnvironmentalData) :
  waqiData_read env network city = Some w ->
  w_aqi w = Some b ->
  0 <= b ->
  returns (fetchEnvironmentalData env network random city) vm ->
  exists downtown suburbs industrial residential parks : Z,
    map averageAqi (locationAverages vm) =
      [Num (inject_Z downtown); Num (inject_Z suburbs);
       Num (inject_Z industrial); Num (inject_Z residential);
       Num (inject_Z parks)] /\
    (0 <= parks <= suburbs)%Z /\
    (suburbs <= residential <= downtown)%Z /\
    (downtown <= industrial)%Z.
Proof.
  intros Hw Hb Hpos Hr. rewrite (returns_view_model _ _ _ _ _ _ Hw Hr).
  rewrite view_model_locationAverages, Hb.
  unfold make_locationAverages. cbn [map averageAqi of_json ToNumber mul lift2
    Math_round].
  exists (Qfloor (b * 1.2 + 0.5)), (Qfloor (b * 0.8 + 0.5)),
    (Qfloor (b * 1.4 + 0.5)), (Qfloor (b * 0.9 + 0.5)),
    (Qfloor (b * 0.7 + 0.5)).
  split; [reflexivity|].
  assert (H0 : (0 <= Qfloor (b * 0.7 + 0.5))%Z).
  { change 0%Z with (Qfloor 0). apply Qfloor_resp_le. lra. }
  repeat split; try assumption; apply Qfloor_resp_le; lra.
Qed.

Lemma X11_location_order_witness :
  exists downtown suburbs industrial residential parks : Z,
    map averageAqi
      (locationAverages
         (view_model Sample.env (Sample.always 0.5) (Sample.feed 100 30))) =
      [Num (inject_Z downtown); Num (inject_Z suburbs);
       Num (inject_Z industrial); Num (inject_Z residential);
       Num (inject_Z parks)] /\
    (0 <= parks <= suburbs)%Z /\
    (suburbs <= residential <= downtown)%Z /\
    (downtown <= industrial)%Z.
Proof.
  apply (X11_location_order Sample.env (Sample.serve_feed (Sample.feed 100 30))
           (Sample.always 0.5) None (Sample.feed 100 30) 100).
  - reflexivity.
  - reflexivity.
  - discriminate.
  - unfold returns. reflexivity.
Defined.

(** ** Defaults of the current readings *)

Lemma chain_cases (w : WaqiData) (m : Iaqi -> option Reading) :
  chain w m = VUndefined \/ exists q, chain w m = VNumber (Num q).
Proof.
  unfold chain. destruct (iaqi w) as [i|]; [|now left].
  destruct (m i) as [r|]; [|now left].
  destruct (v r) as [q|]; [right; exists q; reflexivity | now left].
Qed.

Lemma or_else_chain (w : WaqiData) (m : Iaqi -> option Reading) (d : Q) :
  ~ d == 0 ->
  (exists q, or_else (chain w m) (Num d) = Num q /\ ~ q == 0) /\
  (absent_or_zero (chain w m) -> or_else (chain w m) (Num d) = Num d) /\
  (forall q, chain w m = VNumber (Num q) -> ~ q == 0 ->
             or_else (chain w m) (Num d) = Num q).
Proof.
  intros Hd. unfold or_else.
  destruct (chain_cases w m) as [-> | (q & ->)]; simpl.
  - split; [exists d; split; [reflexivity | assumption]|].
    split; [reflexivity|]. intros q Hq. discriminate Hq.
  - destruct (Qeq_bool q 0) eqn:E; simpl.
    + apply Qeq_bool_iff in E.
      split; [exists d; split; [reflexivity | assumption]|].
      split; [reflexivity|].
      intros q' [= <-] Hq'. contradiction.
    + assert (Hq : ~ q == 0).
      { intros Hq. apply Qeq_bool_iff in Hq. congruence. }
      split; [exists q; split; [reflexivity | assumption]|].
      split.
      * intros [Hu | (q' & [= <-] & Hz)]; [discriminate | contradiction].
      * intros q' [= <-] _. reflexivity.
Qed.

(** X12: the current temperature, humidity and co2 of a view model are
    numbers and never zero: an upstream reading that is absent or equal
    to zero is replaced by the default (25, 60, 400), any other reading
    is shown as it is. *)
Theorem X12_current_readings (env : Env) (network : string -> FetchOutcome)
  (random : nat -> Q) (city : option string) (w : WaqiData)
  (vm : EnvironmentalData) :
  waqiData_read env network city = Some w ->
  returns (fetchEnvironmentalData env network random city) vm ->
  ((exists q, Current.temperature (current vm) = Num q /\ ~ q == 0) /\
   (absent_or_zero (chain w t) -> Current.temperature (current vm) = Num 25) /\
   (forall q, chain w t = VNumber (Num q) -> ~ q == 0 ->
              Current.temperature (current vm) = Num q)) /\
  ((exists q, Current.humidity (current vm) = Num q /\ ~ q == 0) /\
   (absent_or_zero (chain w h) -> Current.humidity (current vm) = Num 60) /\
   (forall q, chain w h = VNumber (Num q) -> ~ q == 0 ->
              Current.humidity (current vm) = Num q)) /\
  ((exists q, Current.co2 (current vm) = Num q /\ ~ q == 0) /\
   (absent_or_zero (chain w co) -> Current.co2 (current vm) = Num 400) /\
   (forall q, chain w co = VNumber (Num q) -> ~ q == 0 ->
              Current.co2 (current vm) = Num q)).
Proof.
  intros Hw Hr. rewrite (returns_view_model _ _ _ _ _ _ Hw Hr).
  rewrite view_model_current, make_current_eq.
  cbn [fst Current.temperature Current.humidity Current.co2].
  split; [|split]; apply or_else_chain; intros H; discriminate H.
Qed.

(** [Sample.feed] reports a CO reading of zero: 400 is shown. *)
Lemma X12_current_readings_witness :
  Current.co2
    (current (view_model Sample.env (Sample.always 0.5) (Sample.feed 100 30))) =
  Num 400.
Proof.
  refine (proj1 (proj2 (proj2 (proj2
    (X12_current_readings Sample.env (Sample.serve_feed (Sample.feed 100 30))
       (Sample.always 0.5) None (Sample.feed 100 30) _ _ _)))) _).
  - reflexivity.
  - unfold returns. reflexivity.
  - right. exists 0. split; reflexivity.
Defined.

(** ** The hourly samples *)

(** X13: when an upstream reading is falsy, the hourly values made up for
    it stay around the default: every hourly temperature lies between
    22.5 and 27.5, every hourly humidity between 55 and 65 and every
    hourly co2 between 350 and 450, end points included. *)
Theorem X13_hourly_offsets (env : Env) (network : string -> FetchOutcome)
  (random : nat -> Q) (city : option string) (w : WaqiData)
  (vm : EnvironmentalData) :
  in_unit_interval random ->
  waqiData_read env network city = Some w ->
  returns (fetchEnvironmentalData env network random city) vm ->
  (ToBoolean (chain w t) = false ->
   Forall (fun x => in_closed_range 22.5 27.5 (Hourly.temperature x))
          (hourly vm)) /\
  (ToBoolean (chain w h) = false ->
   Forall (fun x => in_closed_range 55 65 (Hourly.humidity x)) (hourly vm)) /\
  (ToBoolean (chain w co) = false ->
   Forall (fun x => in_closed_range 350 450 (Hourly.co2 x)) (hourly vm)).
Proof.
  intros Hrand Hw Hr. rewrite (returns_view_model _ _ _ _ _ _ Hw Hr).
  rewrite view_model_hourly.
  split; [|split]; intros Hb; apply Array_from_Forall; intros i k.
  - rewrite make_hourly_temperature, Hb.
    destruct (Hrand k). unfold in_closed_range. simpl. lra.
  - destruct (make_hourly_humidity env random w (of_json (w_aqi w)) i k)
      as (k' & ->). rewrite Hb.
    destruct (Hrand k'). unfold in_closed_range. simpl. lra.
  - destruct (make_hourly_co2 env random w (of_json (w_aqi w)) i k)
      as (k' & ->). rewrite Hb.
    destruct (Hrand k'). unfold in_closed_range. simpl. lra.
Qed.

(** [Sample.feed] has no humidity reading. *)
Lemma X13_hourly_offsets_witness :
  Forall (fun x => in_closed_range 55 65 (Hourly.humidity x))
    (hourly (view_model Sample.env (Sample.always 0.5) (Sample.feed 100 30))).
Proof.
  refine (proj1 (proj2
    (X13_hourly_offsets Sample.env (Sample.serve_feed (Sample.feed 100 30))
       (Sample.always 0.5) None (Sample.feed 100 30) _ _ _ _)) _).
  - intros k. unfold Sample.always. lra.
  - reflexivity.
  - unfold returns. reflexivity.
  - reflexivity.
Defined.

(** X14: the hourly samples are no history of pollutants: sample [i] is
    labelled with the hour of the clock [i] hours back, never carries a
    PM2.5 value, and repeats the current NO2, SO2 and O3 readings. *)
Theorem X14_hourly_samples (env : Env) (network : string -> FetchOutcome)
  (random : nat -> Q) (city : option string) (vm : EnvironmentalData) :
  returns (fetchEnvironmentalData env network random city) vm ->
  Forall2
    (fun i x =>
       Hourly.hour x = hour_label (hoursBefore env i) /\
       pm25 (HourlyAqi.pollutants (Hourly.aqi x)) = VUndefined /\
       no2 (HourlyAqi.pollutants (Hourly.aqi x)) =
         no2 (CurrentAqi.pollutants (Current.aqi (current vm))) /\
       so2 (HourlyAqi.pollutants (Hourly.aqi x)) =
         so2 (CurrentAqi.pollutants (Current.aqi (current vm))) /\
       o3 (HourlyAqi.pollutants (Hourly.aqi x)) =
         o3 (CurrentAqi.pollutants (Current.aqi (current vm))))
    (seq 0 24) (hourly vm).
Proof.
  intros Hr. apply fetch_returns_iff in Hr. destruct Hr as (w & _ & ->).
  rewrite view_model_hourly, view_model_current, make_current_eq.
  cbn [fst Current.aqi CurrentAqi.pollutants no2 so2 o3].
  unfold Array_from. apply mapM_Forall2. intros i k _.
  unfold make_hourly, or_else_gen.
  destruct (ToBoolean (chain w t)), (ToBoolean (chain w h)),
    (ToBoolean (chain w co)); simpl; repeat split.
Qed.

Lemma X14_hourly_samples_witness :
  Forall2
    (fun i x =>
       Hourly.hour x = hour_label (hoursBefore Sample.env i) /\
       pm25 (HourlyAqi.pollutants (Hourly.aqi x)) = VUndefined /\
       no2 (HourlyAqi.pollutants (Hourly.aqi x)) =
         no2 (CurrentAqi.pollutants (Current.aqi (current
           (view_model Sample.env (Sample.always 0.5) (Sample.feed 100 30))))) /\
       so2 (HourlyAqi.pollutants (Hourly.aqi x)) =
         so2 (CurrentAqi.pollutants (Current.aqi (current
           (view_model Sample.env (Sample.always 0.5) (Sample.feed 100 30))))) /\
       o3 (HourlyAqi.pollutants (Hourly.aqi x)) =
         o3 (CurrentAqi.pollutants (Current.aqi (current
           (view_model Sample.env (Sample.always 0.5) (Sample.feed 100 30))))))
    (seq 0 24)
    (hourly (view_model Sample.env (Sample.always 0.5) (Sample.feed 100 30))).
Proof.
  apply (X14_hourly_samples Sample.env (Sample.serve_feed (Sample.feed 100 30))
           (Sample.always 0.5) None).
  unfold returns. reflexivity.
Defined.

(** ** The bars of the trends chart *)

Lemma mapM_labels (random : nat -> Q) (c : jsval) (lbl : nat -> string)
  (l : list nat) (n : nat) :
  map label (fst (mapM (make_average random c lbl) l n)) = map lbl l.
Proof.
  revert n. induction l as [|i l IH]; intros n; [reflexivity|].
  simpl mapM. unfold gbind at 1.
  destruct (make_average random c lbl i n) as [a n1] eqn:Ea.
  unfold gbind. specialize (IH n1).
  destruct (mapM (make_average random c lbl) l n1) as [ys n2].
  simpl in *. rewrite IH. f_equal.
  unfold make_average, gbind in Ea. rewrite generateVariation_eq in Ea.
  injection Ea as <- _. reflexivity.
Qed.

Ltac distinct_strings :=
  repeat (apply NoDup_cons;
          [ simpl; intros H;
            repeat (destruct H as [H|H]; [discriminate H|]); exact H
          | ]);
  apply NoDup_nil.

(** X15: the trends chart of a view model returned by a call has one bar
    for each entry of the selected series, in order: 24 bars 00:00 to
    23:00 for the daily range, Week 1 to Week 4, the twelve month names
    of the locale, 2020 to 2024; for the daily, weekly and yearly ranges
    no two bars share a period, and the height of a bar is the average of
    its entry. *)
Theorem X15_trend_bars (env : Env) (network : string -> FetchOutcome)
  (random : nat -> Q) (city : option string) (vm : EnvironmentalData) :
  returns (fetchEnvironmentalData env network random city) vm ->
  map Bar.period (getTimeRangeData Range.daily vm) =
    map hour_label (seq 0 24) /\
  map Bar.period (getTimeRangeData Range.weekly vm) =
    ["Week 1"; "Week 2"; "Week 3"; "Week 4"]%string /\
  map Bar.period (getTimeRangeData Range.monthly vm) =
    map (monthShort env) (seq 0 12) /\
  map Bar.period (getTimeRangeData Range.yearly vm) =
    ["2020"; "2021"; "2022"; "2023"; "2024"]%string /\
  NoDup (map Bar.period (getTimeRangeData Range.daily vm)) /\
  NoDup (map Bar.period (getTimeRangeData Range.weekly vm)) /\
  NoDup (map Bar.period (getTimeRangeData Range.yearly vm)) /\
  map Bar.value (getTimeRangeData Range.daily vm) =
    map averageAqi (daily (timeRangeAverages vm)) /\
  map Bar.value (getTimeRangeData Range.weekly vm) =
    map averageAqi (weekly (timeRangeAverages vm)) /\
  map Bar.value (getTimeRangeData Range.monthly vm) =
    map averageAqi (monthly (timeRangeAverages vm)) /\
  map Bar.value (getTimeRangeData Range.yearly vm) =
    map averageAqi (yearly (timeRangeAverages vm)).
Proof.
  intros Hr. apply fetch_returns_iff in Hr. destruct Hr as (w & _ & ->).
  unfold getTimeRangeData. rewrite !map_map. cbn [to_bar Bar.period Bar.value].
  destruct (view_model_timeRangeAverages env random w) as (n & ->).
  destruct (timeRangeAverages_parts env random w n) as (n1 & n2 & n3 & Hp).
  cbv zeta in Hp. destruct Hp as (-> & -> & -> & ->).
  unfold Array_from. rewrite !mapM_labels.
  split; [reflexivity|]. split; [reflexivity|]. split; [reflexivity|].
  split; [reflexivity|].
  split; [vm_compute; distinct_strings|].
  split; [vm_compute; distinct_strings|].
  split; [vm_compute; distinct_strings|].
  repeat split.
Qed.

Lemma X15_trend_bars_witness :
  map Bar.period
    (getTimeRangeData Range.weekly
       (view_model Sample.env (Sample.always 0.5) (Sample.feed 100 30))) =
  ["Week 1"; "Week 2"; "Week 3"; "Week 4"]%string.
Proof.
  refine (proj1 (proj2
    (X15_trend_bars Sample.env (Sample.serve_feed (Sample.feed 100 30))
       (Sample.always 0.5) None _ _))).
  unfold returns. reflexivity.
Defined.

(** ** The prediction panel *)

(** X16: the prediction panel of a view model returned by a call is
    always displayed, always shows a confidence of 85 percent, and its
    trend indicator shows the green down arrow with Improving exactly
    when the second value of [Math.random()] exceeds 0.5, the red up
    arrow with Worsening otherwise; it never shows Stable. *)
Theorem X16_prediction_panel (env : Env) (network : string -> FetchOutcome)
  (random : nat -> Q) (city : option string) (vm : EnvironmentalData) :
  returns (fetchEnvironmentalData env network random city) vm ->
  exists p,
    CurrentAqi.prediction (Current.aqi (current vm)) = Some p /\
    confidence_percent p = Num 85 /\
    (0.5 < random 1%nat ->
     TrendIndicator (trend p) =
     {| icon := ArrowDownIcon; color := "text-green-500";
        text := "Improving" |}) /\
    (random 1%nat <= 0.5 ->
     TrendIndicator (trend p) =
     {| icon := ArrowUpIcon; color := "text-red-500"; text := "Worsening" |}) /\
    text (TrendIndicator (trend p)) <> "Stable"%string.
Proof.
  intros Hr. apply fetch_returns_iff in Hr. destruct Hr as (w & _ & ->).
  rewrite view_model_current, make_current_eq.
  cbn [fst Current.aqi CurrentAqi.prediction].
  eexists. split; [reflexivity|]. cbn [trend].
  split; [reflexivity|].
  destruct (gtb (Num (random 1%nat)) (Num 0.5)) eqn:E; gt_cases;
    (split; [|split]); intros H; try reflexivity; try discriminate H; lra.
Qed.

Lemma X16_prediction_panel_witness :
  exists p,
    CurrentAqi.prediction
      (Current.aqi
         (current (view_model Sample.env (Sample.always 0.75)
                     (Sample.feed 100 30)))) = Some p /\
    confidence_percent p = Num 85 /\
    (0.5 < Sample.always 0.75 1%nat ->
     TrendIndicator (trend p) =
     {| icon := ArrowDownIcon; color := "text-green-500";
        text := "Improving" |}) /\
    (Sample.always 0.75 1%nat <= 0.5 ->
     TrendIndicator (trend p) =
     {| icon := ArrowUpIcon; color := "text-red-500"; text := "Worsening" |}) /\
    text (TrendIndicator (trend p)) <> "Stable"%string.
Proof.
  apply (X16_prediction_panel Sample.env
           (Sample.serve_feed (Sample.feed 100 30)) (Sample.always 0.75) None).
  unfold returns. reflexivity.
Defined.

(** ** Order of the categories *)

(** X17: the thresholds of [getAqiCategory] are in order: a greater AQI
    never gets a milder category. *)
Theorem X17_category_monotone (a b : Q) :
  a <= b ->
  (severity (getAqiCategory (VNumber (Num a))) <=
   severity (getAqiCategory (VNumber (Num b))))%nat.
Proof.
  intros Hab. unfold getAqiCategory, ToNumber, leb.
  destruct (Qle_bool a 50) eqn:A1;
    [|destruct (Qle_bool a 100) eqn:A2;
      [|destruct (Qle_bool a 150) eqn:A3;
        [|destruct (Qle_bool a 200) eqn:A4;
          [|destruct (Qle_bool a 300) eqn:A5]]]];
    (destruct (Qle_bool b 50) eqn:B1;
     [|destruct (Qle_bool b 100) eqn:B2;
       [|destruct (Qle_bool b 150) eqn:B3;
         [|destruct (Qle_bool b 200) eqn:B4;
           [|destruct (Qle_bool b 300) eqn:B5]]]]);
    q_cases; try (vm_compute; lia); lra.
Qed.

Lemma X17_category_monotone_witness :
  (severity (getAqiCategory (VNumber (Num 80))) <=
   severity (getAqiCategory (VNumber (Num 180))))%nat.
Proof.
  apply (X17_category_monotone 80 180). discriminate.
Defined.

(** ** A response without an AQI *)

Lemma generateVariation_undefined (random : nat -> Q) (k : nat) :
  fst (generateVariation random VUndefined k) = NaN.
Proof. reflexivity. Qed.

(** X18: when an ['ok'] response carries no [aqi], the call still returns
    a view model: its current AQI is [undefined], its category is
    ['Hazardous'] with the colour of that band, and the predicted AQI,
    every synthetic value and every location average are [NaN]. *)
Theorem X18_missing_aqi (env : Env) (network : string -> FetchOutcome)
  (random : nat -> Q) (city : option string) (w : WaqiData)
  (vm : EnvironmentalData) :
  waqiData_read env network city = Some w ->
  w_aqi w = None ->
  returns (fetchEnvironmentalData env network random city) vm ->
  CurrentAqi.value (Current.aqi (current vm)) = VUndefined /\
  CurrentAqi.category (Current.aqi (current vm)) = "Hazardous"%string /\
  getAqiColor (CurrentAqi.value (Current.aqi (current vm))) =
    "#7A0000"%string /\
  option_map predictedAQI (CurrentAqi.prediction (Current.aqi (current vm))) =
    Some NaN /\
  Forall (fun x => x = NaN) (synthetic_values vm) /\
  Forall (fun a => averageAqi a = NaN) (locationAverages vm).
Proof.
  intros Hw Ha Hr. rewrite (returns_view_model _ _ _ _ _ _ Hw Hr).
  rewrite view_model_current, make_current_eq, view_model_locationAverages.
  rewrite Ha. cbn [fst Current.aqi CurrentAqi.value CurrentAqi.category
    CurrentAqi.prediction of_json option_map predictedAQI].
  do 4 (split; [reflexivity|]).
  split.
  - eapply Forall_impl; [|apply synthetic_values_generated].
    intros x (k & ->). rewrite Ha. reflexivity.
  - repeat constructor.
Qed.

(** An ['ok'] body whose [data] is a string has no [aqi]. *)
Lemma X18_missing_aqi_witness :
  CurrentAqi.category
    (Current.aqi (current (view_model Sample.env (Sample.always 0.5) empty_feed))) =
  "Hazardous"%string.
Proof.
  refine (proj1 (proj2
    (X18_missing_aqi Sample.env
       (Sample.serve true (Sample.body "ok" (Message "maintenance")))
       (Sample.always 0.5) None empty_feed _ _ _ _))).
  - reflexivity.
  - reflexivity.
  - unfold returns. reflexivity.
Defined.

(** * What a view model depends on *)

(** ** Clock and locale *)

Lemma mapM_ext_in {A B} (f g : A -> Gen B) (l : list A) :
  (forall x, In x l -> forall n, f x n = g x n) ->
  forall n, mapM f l n = mapM g l n.
Proof.
  induction l as [|x xs IH]; intros Hfg n; simpl; [reflexivity|].
  unfold gbind. rewrite (Hfg x (or_introl eq_refl) n).
  destruct (g x n) as [y n1].
  rewrite IH; [reflexivity|]. intros z Hz. apply Hfg. now right.
Qed.

Section ClockAndLocale.

Variables env1 env2 : Env.
Hypothesis same_env : same_clock_and_locale env1 env2.
Variable random : nat -> Q.

Lemma make_timeRangeAverages_same_locale (c : jsval) (n : nat) :
  make_timeRangeAverages env1 random c n =
  make_timeRangeAverages env2 random c n.
Proof.
  destruct same_env as (_ & _ & Hm).
  unfold make_timeRangeAverages, gbind.
  destruct (Array_from 24 _ n) as [d n1].
  destruct (Array_from 4 _ n1) as [wk n2].
  unfold Array_from at 1 3.
  rewrite (mapM_ext_in (make_average random c (monthShort env1))
             (make_average random c (monthShort env2))); [reflexivity|].
  intros i Hi k. apply in_seq in Hi. unfold make_average, gbind.
  rewrite generateVariation_eq, Hm by lia. reflexivity.
Qed.

Lemma processedData_same_clock_and_locale (w : WaqiData) (n : nat) :
  processedData env1 random w n = processedData env2 random w n.
Proof.
  pose proof same_env as (Hiso & Hh & _).
  unfold processedData, gbind. rewrite !make_current_eq, Hiso.
  unfold Array_from.
  rewrite (mapM_ext_in (make_hourly env1 random w (of_json (w_aqi w)))
             (make_hourly env2 random w (of_json (w_aqi w)))).
  - destruct (mapM _ (seq 0 24) (S (S n))) as [hs n1].
    rewrite make_timeRangeAverages_same_locale. reflexivity.
  - intros i Hi k. apply in_seq in Hi. unfold make_hourly.
    rewrite Hh by lia. reflexivity.
Qed.

End ClockAndLocale.

(** The view model is fixed by the eight readings, the clock and locale
    seen, and the draws consumed. *)
Lemma view_model_agree (env1 env2 : Env) (random1 random2 : nat -> Q)
  (w1 w2 : WaqiData) :
  same_clock_and_locale env1 env2 ->
  same_draws (71 + 24 * falsy_readings w1) random1 random2 ->
  same_readings w1 w2 ->
  view_model env1 random1 w1 = view_model env2 random2 w2.
Proof.
  intros He Hd Hs. unfold view_model.
  destruct (local_processedData env1 random1 random2 w1 0%nat) as [_ Heq].
  rewrite Heq.
  - rewrite (processedData_same_readings env1 random2 w1 w2 0%nat Hs).
    now rewrite (processedData_same_clock_and_locale env1 env2 He).
  - intros k Hk. apply Hd. rewrite processedData_state in Hk. lia.
Qed.

Lemma same_readings_refl (w : WaqiData) : same_readings w w.
Proof. repeat split. Qed.

(** C1, amended: the view model is a function of the upstream response,
    of the clock and locale the call sees (the timestamp, the local hour
    of each of the 24 hours counted back, the twelve short month names)
    and of the values that [Math.random()] returns to it: two runs over
    the same response that agree on these, on the first [71 + 24 k]
    random values where [k] counts the falsy readings among temperature,
    humidity and CO, return identical view models; two runs over the same
    response that differ in them still agree on the current temperature,
    humidity, co2, AQI value, category and pollutants, on the confidence
    of the prediction and on the location averages. *)
Theorem C1_function_of_response_clock_and_draws
  (network : string -> FetchOutcome) (city : option string) :
  (forall env1 env2 random1 random2 w vm1 vm2,
      waqiData_read env1 network city = Some w ->
      waqiData_read env2 network city = Some w ->
      same_clock_and_locale env1 env2 ->
      same_draws (71 + 24 * falsy_readings w) random1 random2 ->
      returns (fetchEnvironmentalData env1 network random1 city) vm1 ->
      returns (fetchEnvironmentalData env2 network random2 city) vm2 ->
      vm1 = vm2) /\
  (forall env1 env2 random1 random2 w vm1 vm2,
      waqiData_read env1 network city = Some w ->
      waqiData_read env2 network city = Some w ->
      returns (fetchEnvironmentalData env1 network random1 city) vm1 ->
      returns (fetchEnvironmentalData env2 network random2 city) vm2 ->
      Current.temperature (current vm1) = Current.temperature (current vm2) /\
      Current.humidity (current vm1) = Current.humidity (current vm2) /\
      Current.co2 (current vm1) = Current.co2 (current vm2) /\
      CurrentAqi.value (Current.aqi (current vm1)) =
        CurrentAqi.value (Current.aqi (current vm2)) /\
      CurrentAqi.category (Current.aqi (current vm1)) =
        CurrentAqi.category (Current.aqi (current vm2)) /\
      CurrentAqi.pollutants (Current.aqi (current vm1)) =
        CurrentAqi.pollutants (Current.aqi (current vm2)) /\
      option_map confidence
          (CurrentAqi.prediction (Current.aqi (current vm1))) =
        option_map confidence
          (CurrentAqi.prediction (Current.aqi (current vm2))) /\
      locationAverages vm1 = locationAverages vm2).
Proof.
  split.
  - intros env1 env2 random1 random2 w vm1 vm2 Hw1 Hw2 He Hd Hr1 Hr2.
    rewrite (returns_view_model _ _ _ _ _ _ Hw1 Hr1).
    rewrite (returns_view_model _ _ _ _ _ _ Hw2 Hr2).
    apply view_model_agree; [assumption | assumption |].
    apply same_readings_refl.
  - intros env1 env2 random1 random2 w vm1 vm2 Hw1 Hw2 Hr1 Hr2.
    rewrite (returns_view_model _ _ _ _ _ _ Hw1 Hr1).
    rewrite (returns_view_model _ _ _ _ _ _ Hw2 Hr2).
    rewrite !view_model_current, !make_current_eq,
      !view_model_locationAverages.
    repeat split.
Qed.

(** Another key, other names past the twelfth month and other random
    values past the 119 that [Sample.feed] consumes: the same view
    model. *)
Lemma C1_function_of_response_clock_and_draws_witness :
  view_model Sample.env
    (fun k => if (k <? 119)%nat then 0.5 else 0.25) (Sample.feed 100 30) =
  view_model Sample.other_env (Sample.always 0.5) (Sample.feed 100 30).
Proof.
  refine (proj1 (C1_function_of_response_clock_and_draws
                   (Sample.serve_feed (Sample.feed 100 30)) None)
            Sample.env Sample.other_env
            (fun k => if (k <? 119)%nat then 0.5 else 0.25) (Sample.always 0.5)
            (Sample.feed 100 30) _ _ _ _ _ _ _ _).
  - reflexivity.
  - reflexivity.
  - split; [reflexivity|]. split; [reflexivity|].
    intros i Hi. do 12 (destruct i as [|i]; [reflexivity|]). lia.
  - intros k Hk. simpl in Hk.
    destruct (Nat.ltb_spec k 119); [reflexivity | lia].
  - unfold returns. reflexivity.
  - unfold returns. reflexivity.
Defined.

(** C6, amended: the upstream values incorporated into the view model
    are the current AQI reading, the pollutant readings (pm25, no2, so2,
    o3, the last three repeated in every hourly sample) and the
    temperature, humidity and CO readings ([iaqi.t.v], [iaqi.h.v],
    [iaqi.co.v]), which are shown as current temperature, humidity and
    co2 when truthy (25, 60 and 400 otherwise) and, when truthy, as the
    temperature, humidity and co2 of every hourly sample; the view model
    takes nothing else from the upstream response: two successful calls
    whose responses agree on these eight values, that see the same clock
    and locale and get the same values from [Math.random()], return the
    same view model. *)
Theorem C6_upstream_values (env1 : Env) (random1 : nat -> Q)
  (network1 : string -> FetchOutcome) (city1 : option string)
  (w1 : WaqiData) (vm1 : EnvironmentalData) :
  waqiData_read env1 network1 city1 = Some w1 ->
  returns (fetchEnvironmentalData env1 network1 random1 city1) vm1 ->
  (CurrentAqi.value (Current.aqi (current vm1)) = of_json (w_aqi w1) /\
   CurrentAqi.pollutants (Current.aqi (current vm1)) =
     {| pm25 := chain w1 i_pm25; no2 := chain w1 i_no2;
        so2 := chain w1 i_so2; o3 := chain w1 i_o3 |} /\
   Current.temperature (current vm1) = or_else (chain w1 t) (Num 25) /\
   Current.humidity (current vm1) = or_else (chain w1 h) (Num 60) /\
   Current.co2 (current vm1) = or_else (chain w1 co) (Num 400)) /\
  (Forall (fun x =>
             no2 (HourlyAqi.pollutants (Hourly.aqi x)) = chain w1 i_no2 /\
             so2 (HourlyAqi.pollutants (Hourly.aqi x)) = chain w1 i_so2 /\
             o3 (HourlyAqi.pollutants (Hourly.aqi x)) = chain w1 i_o3)
          (hourly vm1) /\
   (ToBoolean (chain w1 t) = true ->
    Forall (fun x => Hourly.temperature x = ToNumber (chain w1 t))
           (hourly vm1)) /\
   (ToBoolean (chain w1 h) = true ->
    Forall (fun x => Hourly.humidity x = ToNumber (chain w1 h))
           (hourly vm1)) /\
   (ToBoolean (chain w1 co) = true ->
    Forall (fun x => Hourly.co2 x = ToNumber (chain w1 co))
           (hourly vm1))) /\
  (forall env2 random2 network2 city2 w2 vm2,
      waqiData_read env2 network2 city2 = Some w2 ->
      same_readings w1 w2 ->
      same_clock_and_locale env1 env2 ->
      same_draws (71 + 24 * falsy_readings w1) random1 random2 ->
      returns (fetchEnvironmentalData env2 network2 random2 city2) vm2 ->
      vm1 = vm2).
Proof.
  intros Hw1 Hr1. rewrite (returns_view_model _ _ _ _ _ _ Hw1 Hr1).
  split; [|split].
  - rewrite view_model_current, make_current_eq. repeat split.
  - rewrite view_model_hourly.
    split; [|split; [|split]]; try intros Hb;
      apply Array_from_Forall; intros i k.
    + unfold make_hourly, or_else_gen.
      destruct (ToBoolean (chain w1 t)), (ToBoolean (chain w1 h)),
        (ToBoolean (chain w1 co)); simpl; repeat split.
    + rewrite make_hourly_temperature, Hb. reflexivity.
    + destruct (make_hourly_humidity env1 random1 w1 (of_json (w_aqi w1)) i k)
        as (k' & ->). rewrite Hb. reflexivity.
    + destruct (make_hourly_co2 env1 random1 w1 (of_json (w_aqi w1)) i k)
        as (k' & ->). rewrite Hb. reflexivity.
  - intros env2 random2 network2 city2 w2 vm2 Hw2 Hs He Hd Hr2.
    rewrite (returns_view_model _ _ _ _ _ _ Hw2 Hr2).
    apply view_model_agree; assumption.
Qed.

(** A feed with the readings of [Sample.feed] and an empty reading for
    NO2 where [Sample.feed] has none, seen under another key: the same
    view model. *)
Lemma C6_upstream_values_witness :
  view_model Sample.env (Sample.always 0.5) (Sample.feed 100 30) =
  view_model Sample.other_env (Sample.always 0.5)
    {| w_aqi := Some 100;
       iaqi := Some {| t := Sample.reading 30; h := Some {| v := None |};
                       co := Sample.reading 0;
                       i_pm25 := Sample.reading 55;
                       i_no2 := Some {| v := None |};
                       i_so2 := None; i_o3 := Sample.reading 12 |} |}.
Proof.
  refine (proj2 (proj2
    (C6_upstream_values Sample.env (Sample.always 0.5)
       (Sample.serve_feed (Sample.feed 100 30)) None (Sample.feed 100 30)
       _ _ _))
    Sample.other_env (Sample.always 0.5)
    (Sample.serve_feed
       {| w_aqi := Some 100;
          iaqi := Some {| t := Sample.reading 30; h := Some {| v := None |};
                          co := Sample.reading 0;
                          i_pm25 := Sample.reading 55;
                          i_no2 := Some {| v := None |};
                          i_so2 := None; i_o3 := Sample.reading 12 |} |})
    None _ _ _ _ _ _ _).
  - reflexivity.
  - unfold returns. reflexivity.
  - reflexivity.
  - repeat split.
  - split; [reflexivity|]. split; [reflexivity|].
    intros i Hi. do 12 (destruct i as [|i]; [reflexivity|]). lia.
  - intros k Hk. reflexivity.
  - unfold returns. reflexivity.
Defined.

(** ** The location averages and the upstream AQI *)




(** ** Failure and success of a call, with the path of the error *)

(** C3, amended: a call throws iff the request rejects, the response is
    not ok, the status of the parsed body is not ['ok'], the city cannot
    be URI-encoded, the body does not parse to an object, or an ['ok']
    body has no [data]. The error that reaches the caller is the one
    raised at the origin. The errors raised inside [fetchWaqiData] (the
    rejection of the request or of the parsing, the error of the encoder,
    the Error built for a response that is not ok or for a status that is
    not ['ok'], the TypeError of a [null] body) are caught, logged and
    rethrown by both [catch] blocks. The TypeError of an ['ok'] body
    without [data] is raised in [fetchEnvironmentalData] itself, after
    [fetchWaqiData] has returned, and goes through the outer [catch]
    only. An ['ok'] response carrying a feed raises no error and returns
    the view model built from it; a call never does both. *)
Theorem C3_failure_and_success (env : Env) (network : string -> FetchOutcome)
  (random : nat -> Q) (city : option string) :
  ((exists e, throws (fetchEnvironmentalData env network random city) e) <->
   fetch_rejects (settles env network city) \/
   response_not_ok (settles env network city) \/
   body_status_not_ok (settles env network city) \/
   city_not_encodable (settles env network city) \/
   body_unreadable (settles env network city) \/
   ok_body_without_data (settles env network city)) /\
  (forall e,
      settles env network city = inr (Rejected e) ->
      throws (fetchWaqiData env network (city_or_default city)) e /\
      throws (fetchEnvironmentalData env network random city) e) /\
  (forall r,
      settles env network city = inr (Resolved r) -> ok r = false ->
      throws (fetchWaqiData env network (city_or_default city))
             (Error "Failed to fetch WAQI data") /\
      throws (fetchEnvironmentalData env network random city)
             (Error "Failed to fetch WAQI data")) /\
  (forall r b,
      settles env network city = inr (Resolved r) -> ok r = true ->
      json r = JsonValue b -> status b <> Some "ok"%string ->
      throws (fetchWaqiData env network (city_or_default city))
             (Error (data_or_default b)) /\
      throws (fetchEnvironmentalData env network random city)
             (Error (data_or_default b))) /\
  (forall e,
      settles env network city = inl e ->
      throws (fetchWaqiData env network (city_or_default city)) e /\
      throws (fetchEnvironmentalData env network random city) e) /\
  (forall r e,
      settles env network city = inr (Resolved r) -> ok r = true ->
      json r = JsonRejected e ->
      throws (fetchWaqiData env network (city_or_default city)) e /\
      throws (fetchEnvironmentalData env network random city) e) /\
  (forall r,
      settles env network city = inr (Resolved r) -> ok r = true ->
      json r = JsonNull ->
      exists e,
        name e = "TypeError"%string /\
        throws (fetchWaqiData env network (city_or_default city)) e /\
        throws (fetchEnvironmentalData env network random city) e) /\
  (forall e,
      throws (fetchWaqiData env network (city_or_default city)) e ->
      throws (fetchEnvironmentalData env network random city) e /\
      console (fetchEnvironmentalData env network random city) =
      [("Error fetching WAQI data:"%string, e);
       ("Error in fetchEnvironmentalData:"%string, e)]) /\
  (forall r b,
      settles env network city = inr (Resolved r) -> ok r = true ->
      json r = JsonValue b -> status b = Some "ok"%string ->
      data b = NoData ->
      returns (fetchWaqiData env network (city_or_default city)) b /\
      console (fetchWaqiData env network (city_or_default city)) = [] /\
      exists e,
        name e = "TypeError"%string /\
        throws (fetchEnvironmentalData env network random city) e /\
        console (fetchEnvironmentalData env network random city) =
        [("Error in fetchEnvironmentalData:"%string, e)]) /\
  (forall r b w,
      settles env network city = inr (Resolved r) -> ok r = true ->
      json r = JsonValue b -> status b = Some "ok"%string ->
      data b = Feed w ->
      returns (fetchEnvironmentalData env network random city)
              (view_model env random w)) /\
  (forall e vm,
      throws (fetchEnvironmentalData env network random city) e ->
      ~ returns (fetchEnvironmentalData env network random city) vm).
Proof.
  assert (Hin : forall e,
             throws (fetchWaqiData env network (city_or_default city)) e ->
             throws (fetchWaqiData env network (city_or_default city)) e /\
             throws (fetchEnvironmentalData env network random city) e).
  { intros e He. split; [assumption|]. now apply outer_catch_rethrows. }
  split; [|split; [|split; [|split; [|split; [|split; [|split;
    [|split; [|split; [|split]]]]]]]]].
  - rewrite fetch_throws_iff. apply waqiData_read_None.
  - intros e Hn. apply Hin.
    unfold throws. rewrite fetchWaqiData_completion, Hn. reflexivity.
  - intros r Hn Hok. apply Hin.
    unfold throws. rewrite fetchWaqiData_completion, Hn, Hok. reflexivity.
  - intros r b Hn Hok Hj Hs. apply Hin.
    unfold throws. rewrite fetchWaqiData_completion, Hn, Hok, Hj.
    destruct (status_not_ok b) eqn:E; [reflexivity|].
    apply status_not_ok_false in E. contradiction.
  - intros e Hn. apply Hin.
    unfold throws. rewrite fetchWaqiData_completion, Hn. reflexivity.
  - intros r e Hn Hok Hj. apply Hin.
    unfold throws. rewrite fetchWaqiData_completion, Hn, Hok, Hj. reflexivity.
  - intros r Hn Hok Hj. exists (TypeError_reading "status").
    split; [reflexivity|]. apply Hin.
    unfold throws. rewrite fetchWaqiData_completion, Hn, Hok, Hj. reflexivity.
  - intros e He. split; [now apply outer_catch_rethrows|].
    unfold throws in He. rewrite fetch_console, He. reflexivity.
  - intros r b Hn Hok Hj Hs Hd.
    assert (Hb : completion
                   (fetchWaqiData env network (city_or_default city)) = inr b).
    { rewrite fetchWaqiData_completion, Hn, Hok, Hj.
      apply status_not_ok_false in Hs. rewrite Hs. reflexivity. }
    split; [exact Hb|]. split.
    + rewrite fetchWaqiData_console, Hb. reflexivity.
    + exists (TypeError_reading "aqi"). split; [reflexivity|]. split.
      * unfold throws. rewrite fetch_completion, Hb, Hd. reflexivity.
      * rewrite fetch_console, Hb, Hd. reflexivity.
  - intros r b w Hn Hok Hj Hs Hd. unfold returns.
    rewrite fetch_completion, fetchWaqiData_completion, Hn, Hok, Hj.
    apply status_not_ok_false in Hs. rewrite Hs, Hd. reflexivity.
  - unfold throws, returns. intros e vm -> H. discriminate.
Qed.

(** An ['ok'] body without [data]: [fetchWaqiData] returns it and logs
    nothing; the call throws a TypeError, logged by the outer [catch]
    only. *)
Lemma C3_failure_and_success_witness :
  let network := Sample.serve true (Sample.body "ok" NoData) in
  returns (fetchWaqiData Sample.env network "mumbai")
          {| status := Some "ok"%string; data := NoData |} /\
  console (fetchWaqiData Sample.env network "mumbai") = [] /\
  exists e,
    name e = "TypeError"%string /\
    throws (fetchEnvironmentalData Sample.env network (Sample.always 0.5) None)
           e /\
    console (fetchEnvironmentalData Sample.env network (Sample.always 0.5) None) =
    [("Error in fetchEnvironmentalData:"%string, e)].
Proof.
  cbv zeta.
  refine (proj1 (proj2 (proj2 (proj2 (proj2 (proj2 (proj2 (proj2 (proj2
    (C3_failure_and_success Sample.env
       (Sample.serve true (Sample.body "ok" NoData))
       (Sample.always 0.5) None)))))))))
    {| ok := true; json := Sample.body "ok" NoData |}
    {| status := Some "ok"%string; data := NoData |} _ _ _ _ _);
    reflexivity.
Defined.
